(** * PowerSchool-API: the fetch orchestrator [PowerSchoolUser.getStudentInfo]

    A shallow embedding of [src/models/PowerSchoolUser.js].  The JavaScript
    heap is made explicit: every [new] takes a fresh object identity from a
    counter, the one object that is mutated while shared
    ([this.studentData]) lives in a store, and the API object's cache is
    part of the state that every statement threads through. *)

From stdpp Require Import base strings gmap list sorting.
From Stdlib Require Import ZArith.

Set Warnings "-register-all".

(** ** Values on the wire *)

(** What the SOAP transport hands to the callback: plain data. *)
Inductive json :=
| JUndefined
| JNull
| JBool (b : bool)
| JNum (n : Z)
| JStr (s : string)
| JArr (items : list json)
| JObj (fields : list (string * json)).

(** The [typeof] operator.  Arrays and [null] are both ["object"]. *)
Definition typeof (v : json) : string :=
  match v with
  | JUndefined => "undefined"
  | JBool _ => "boolean"
  | JNum _ => "number"
  | JStr _ => "string"
  | JNull | JArr _ | JObj _ => "object"
  end.

(** Elements of a wire array ([[]] for anything else; only used on the
    branch of line 65 that is taken when [typeof] answers ["array"]). *)
Definition items_of (v : json) : list json :=
  match v with JArr l => l | _ => [] end.

(** One element of [data.assignmentCategories].  Line 78 reads its [id],
    a number ([index.d.ts]: [public id: number]). *)
Record RawCategory := { raw_id : Z; raw_fields : json }.

(** [result.return.studentDataVOs]: one field per collection.  [schools] is
    the field whose shape varies, so it stays an untyped wire value. *)
Record StudentDataVOs := {
  schools : json;
  teachers : list json;
  terms : list json;
  reportingTerms : list json;
  assignments : list json;
  assignmentScores : list json;
  attendanceCodes : list json;
  periods : list json;
  sections : list json;
  finalGrades : list json;
  assignmentCategories : list RawCategory;
  notInSessionDays : list json;
  student : json;
  yearId : json;
  attendance : list json
}.

Record Return := { studentDataVOs : option StudentDataVOs }.
Record Result := { return_ : option Return }.

(** The [err] argument of the callback ([None] is [null]). *)
Definition Error := string.
Definition Reply : Type := option Error * option Result.

(** ** The request (lines 45-59) *)

Record ServerInfo := { apiVersion : string }.

Record PowerSchoolSession := {
  userId : Z;
  s_userType : Z;
  serviceTicket : string;
  serverInfo : ServerInfo;
  serverCurrentTime : option string;
  studentIDs : Z
}.

Record UserSessionVO := {
  vo_userId : Z;
  vo_serviceTicket : string;
  vo_serverInfo : ServerInfo;
  vo_serverCurrentTime : option string;
  vo_userType : Z
}.

Record Qil := { includes : string }.

Record Request := {
  userSessionVO : UserSessionVO;
  req_studentIDs : Z;
  qil : Qil
}.

(** [this.api.client.getStudentData]: the transport, an external
    collaborator.  Only the pair it passes to the callback matters. *)
Definition Client : Type := Request → Reply.

(** ** Decoded records *)

Inductive class :=
| PowerSchoolSchool | PowerSchoolTeacher | PowerSchoolTerm
| PowerSchoolReportingTerm | PowerSchoolAssignment
| PowerSchoolAssignmentScore | PowerSchoolAttendanceCode
| PowerSchoolPeriod | PowerSchoolCourse | PowerSchoolFinalGrade
| PowerSchoolEvent | PowerSchoolStudent | PowerSchoolAttendanceRecord.

(** An instance built by [Class.fromData(wire, api)]: its identity, its
    class and the wire element it was decoded from.  Two references denote
    the same object exactly when the [oid]s agree. *)
Record instance := Instance { oid : nat; class_of : class; wire : json }.

(** A [PowerSchoolAssignmentCategory]; [cat_assignments] is the array that
    line 79 pushes to. *)
Record category := Category {
  cat_oid : nat;
  cat_id : Z;
  cat_wire : json;
  cat_assignments : list instance
}.

(** What a member of the snapshot or a cached collection can hold. *)
Inductive value :=
| VInstances (l : list instance)
| VCategories (l : list category)
| VInstance (i : instance)
| VJson (j : json).

(** ** The API object and the world *)

(** One cached collection: the records and the field they are keyed by. *)
Record collection := { keyField : string; records : value }.

(** [this.api].  [storeCalls] lists the (name, key) of every
    [storeCacheInfo] call so far, oldest first. *)
Record PowerSchoolAPI := {
  cachedInfo : gmap string collection;
  storeCalls : list (string * string)
}.

(** The state a statement runs in: the next free object identity, the
    store of [PowerSchoolStudentInfo] objects (member name to value), and
    the API object. *)
Record World := {
  next_oid : nat;
  heap : gmap nat (gmap string value);
  api : PowerSchoolAPI
}.

(** Statements: state passing over [World]. *)
Definition JS (A : Type) : Type := World → A * World.

Global Instance JS_ret : MRet JS := λ A x w, (x, w).
Global Instance JS_bind : MBind JS := λ A B f m w, let '(x, w') := m w in f x w'.

(** [new C(...)]: take a fresh identity. *)
Definition fresh : JS nat :=
  λ w, (next_oid w,
        {| next_oid := S (next_oid w); heap := heap w; api := api w |}).

(** [Class.fromData(data, this.api)] for the classes whose members this
    file only passes around. *)
Definition fromData (c : class) (data : json) : JS instance :=
  o ← fresh; mret (Instance o c data).

(** Modelled from the spec: [PowerSchoolAssignmentCategory.fromData] is not
    part of [src/]; the decoded record keeps the element's identifier
    ("a stable identifier field") and starts with no assignments, which
    are "populated post-hoc ... and appending". *)
Definition Category_fromData (data : RawCategory) : JS category :=
  o ← fresh; mret (Category o (raw_id data) (raw_fields data) []).

(** [obj.member = v] on an object of the store. *)
Definition set_member (l : nat) (member : string) (v : value) : JS unit :=
  λ w, (tt, {| next_oid := next_oid w;
               heap := alter (λ o, <[member := v]> o) l (heap w);
               api := api w |}).

(** [new PowerSchoolStudentInfo()]: a new object with no member set yet. *)
Definition new_PowerSchoolStudentInfo : JS nat :=
  λ w, (next_oid w,
        {| next_oid := S (next_oid w);
           heap := <[next_oid w := ∅]> (heap w);
           api := api w |}).

(** Modelled from the spec: [PowerSchoolAPI.storeCacheInfo] is not part of
    [src/]; "store(collectionName, records, keyField = "id") replaces any
    existing collection under collectionName". *)
Definition storeCacheInfo (items : value) (name : string)
    (key : option string) : JS unit :=
  λ w, let k := default "id" key in
       (tt, {| next_oid := next_oid w;
               heap := heap w;
               api := {| cachedInfo :=
                           <[name := {| keyField := k; records := items |}]>
                             (cachedInfo (api w));
                         storeCalls := storeCalls (api w) ++ [(name, k)] |} |}).

(** Modelled from the spec: "lookupAll(collectionName) returns every Record
    in a collection". *)
Definition lookupAll (a : PowerSchoolAPI) (name : string) : option value :=
  records <$> cachedInfo a !! name.

(** ** A plain object used as a dictionary (line 77)

    The keys are numbers, so [d[k]] converts [k] to its decimal string;
    distinct integers give distinct property names and none of them is
    inherited from [Object.prototype].  The dictionary is therefore an
    association list over [Z], own properties in creation order. *)
Definition dict (A : Type) : Type := list (Z * A).

(** [d[k]]: [None] is [undefined]. *)
Fixpoint dict_get {A} (k : Z) (d : dict A) : option A :=
  match d with
  | [] => None
  | (k', v') :: d' => if decide (k' = k) then Some v' else dict_get k d'
  end.

(** [d[k] = v]: overwrite in place, or create the property last. *)
Fixpoint dict_set {A} (k : Z) (v : A) (d : dict A) : dict A :=
  match d with
  | [] => [(k, v)]
  | (k', v') :: d' =>
      if decide (k' = k) then (k, v) :: d' else (k', v') :: dict_set k v d'
  end.

(** Mutate, in place, the object stored under [k]; the callers look the key
    up first. *)
Fixpoint dict_alter {A} (f : A → A) (k : Z) (d : dict A) : dict A :=
  match d with
  | [] => []
  | (k', v') :: d' =>
      if decide (k' = k) then (k', f v') :: d' else (k', v') :: dict_alter f k d'
  end.

(** Property names that are array indices come first in ascending numeric
    order, the others follow in creation order. *)
Definition is_array_index (k : Z) : Prop := (0 ≤ k < 2 ^ 32 - 1)%Z.

Global Instance is_array_index_dec k : Decision (is_array_index k).
Proof. unfold is_array_index. apply _. Defined.

Definition key_le {A} (p q : Z * A) : Prop := (p.1 ≤ q.1)%Z.

Global Instance key_le_dec {A} (p q : Z * A) : Decision (key_le p q).
Proof. unfold key_le. apply _. Defined.

Definition Object_values {A} (d : dict A) : list A :=
  (merge_sort key_le (filter (λ p, is_array_index p.1) d)
   ++ filter (λ p, ¬ is_array_index p.1) d).*2.

(** ** Observations on a world *)

(** [obj.member] for an object of the store ([None]: no such member). *)
Definition member_of (w : World) (l : nat) (member : string) : option value :=
  heap w !! l ≫= (λ o : gmap string value, o !! member).

(** [this.studentData] refers to an object. *)
Definition allocated (l : nat) (w : World) : Prop := is_Some (heap w !! l).

(** Objects are compared by identity. *)
Definition occurrences (a : instance) (l : list instance) : nat :=
  length (filter (λ x, oid x = oid a) l).

Definition instances_of (v : option value) : list instance :=
  match v with Some (VInstances l) => l | _ => [] end.

Definition categories_of (v : option value) : list category :=
  match v with Some (VCategories l) => l | _ => [] end.

(** The [storeCacheInfo] calls made between two worlds. *)
Definition calls_between (w w' : World) : list (string * string) :=
  drop (length (storeCalls (api w))) (storeCalls (api w')).

(** ** [PowerSchoolUser] *)

Record PowerSchoolUser := {
  session : PowerSchoolSession;
  userID : Z;
  userType : Z;
  studentData : nat
}.

Section Fetch.

(** [new Date(s).toISOString()]; [None] when the date is invalid and the
    conversion throws. *)
Variable toISOString : string → option string.

(** The number [PowerSchoolAssignment.fromData] stores in the member
    [categoryID] ([index.d.ts]: [public categoryID: number]) for a wire
    element; that decoder is not part of [src/]. *)
Variable categoryID_of : json → Z.

Definition categoryID (a : instance) : Z := categoryID_of (wire a).

(** Lines 22-37.  [None]: the date conversion threw, no user exists. *)
Definition new_PowerSchoolUser (s : PowerSchoolSession)
    : JS (option PowerSchoolUser) :=
  let converted :=
    match serverCurrentTime s with
    | Some t =>
        if decide (t = "") then Some (Some t)
        else (λ iso, Some iso) <$> toISOString t
    | None => Some None
    end in
  match converted with
  | None => mret None
  | Some t' =>
      let s' := {| userId := userId s; s_userType := s_userType s;
                   serviceTicket := serviceTicket s;
                   serverInfo := serverInfo s;
                   serverCurrentTime := t';
                   studentIDs := studentIDs s |} in
      l ← new_PowerSchoolStudentInfo;
      mret (Some {| session := s'; userID := userId s';
                    userType := s_userType s'; studentData := l |})
  end.

(** Lines 45-59. *)
Definition request (this : PowerSchoolUser) : Request :=
  {| userSessionVO :=
       {| vo_userId := userID this;
          vo_serviceTicket := serviceTicket (session this);
          vo_serverInfo := {| apiVersion := apiVersion (serverInfo (session this)) |};
          vo_serverCurrentTime := serverCurrentTime (session this);
          vo_userType := userType this |};
     req_studentIDs := studentIDs (session this);
     qil := {| includes := "1" |} |}.

(** Line 61: [result.return.studentDataVOs] when all three are there. *)
Definition payload_of (result : option Result) : option StudentDataVOs :=
  r ← result; ret ← return_ r; studentDataVOs ret.

(** Line 65, before the [.map]. *)
Definition schools_array (data : StudentDataVOs) : list json :=
  if decide (typeof (schools data) = "array")
  then items_of (schools data)
  else [schools data].

(** [c.assignments.push(a)]. *)
Definition push (a : instance) (c : category) : category :=
  Category (cat_oid c) (cat_id c) (cat_wire c) (cat_assignments c ++ [a]).

(** Line 78: the [forEach] that fills [assignmentCategories], started
    on the dictionary [d]. *)
Fixpoint build_categories (raw : list RawCategory) (d : dict category)
    : JS (dict category) :=
  match raw with
  | [] => mret d
  | data :: rest =>
      c ← Category_fromData data;
      build_categories rest (dict_set (raw_id data) c d)
  end.

(** The body of the [forEach] of line 79 for one assignment,
    [assignmentCategories[a.categoryID].assignments.push(a)].  [None]: there
    is no such category and reading [assignments] of [undefined] throws a
    TypeError. *)
Definition push_to_category (a : instance) (d : dict category)
    : option (dict category) :=
  match dict_get (categoryID a) d with
  | Some _ => Some (dict_alter (push a) (categoryID a) d)
  | None => None
  end.

(** The [forEach] of line 79; it stops at the first push that throws. *)
Fixpoint forEach_push (l : list instance) (d : dict category)
    : option (dict category) :=
  match l with
  | [] => Some d
  | a :: rest => d' ← push_to_category a d; forEach_push rest d'
  end.

(** Line 79: the [filter], then the [forEach]. *)
Definition add_to_categories (decoded : list instance)
    (cats : dict category) : option (dict category) :=
  forEach_push
    (filter (λ a, is_Some (dict_get (categoryID a) cats)) decoded) cats.

(** How the call ends: the promise resolves, it rejects, or the callback
    throws and the promise is never settled. *)
Inductive outcome :=
| Resolved (snapshot : nat)
| Rejected (err : option Error)
| Uncaught (exception : string).

(** Lines 62-109: the callback's body once the guard of line 61 passed. *)
Definition on_payload (this : PowerSchoolUser) (data : StudentDataVOs)
    : JS outcome :=
  schools' ← mapM (fromData PowerSchoolSchool) (schools_array data);
  teachers' ← mapM (fromData PowerSchoolTeacher) (teachers data);
  terms' ← mapM (fromData PowerSchoolTerm) (terms data);
  reportingTerms' ← mapM (fromData PowerSchoolReportingTerm) (reportingTerms data);
  assignments' ← mapM (fromData PowerSchoolAssignment) (assignments data);
  assignmentScores' ← mapM (fromData PowerSchoolAssignmentScore) (assignmentScores data);
  attendanceCodes' ← mapM (fromData PowerSchoolAttendanceCode) (attendanceCodes data);
  periods' ← mapM (fromData PowerSchoolPeriod) (periods data);
  courses' ← mapM (fromData PowerSchoolCourse) (sections data);
  finalGrades' ← mapM (fromData PowerSchoolFinalGrade) (finalGrades data);
  cats ← build_categories (assignmentCategories data) [];
  match add_to_categories assignments' cats with
  | None => mret (Uncaught "TypeError")
  | Some assignmentCategories' =>
  storeCacheInfo (VInstances teachers') "teachers" None;;
  storeCacheInfo (VInstances schools') "schools" (Some "schoolNumber");;
  storeCacheInfo (VInstances periods') "periods" None;;
  storeCacheInfo (VInstances courses') "courses" None;;
  storeCacheInfo (VInstances finalGrades') "finalGrades" (Some "courseID");;
  storeCacheInfo (VInstances terms') "terms" None;;
  storeCacheInfo (VInstances reportingTerms') "reportingTerms" None;;
  storeCacheInfo (VCategories (Object_values assignmentCategories'))
                 "assignmentCategories" None;;
  storeCacheInfo (VInstances assignments') "assignments" None;;
  storeCacheInfo (VInstances assignmentScores') "assignmentScores"
                 (Some "assignmentID");;
  storeCacheInfo (VInstances attendanceCodes') "attendanceCodes" None;;
  set_member (studentData this) "schools" (VInstances schools');;
  set_member (studentData this) "teachers" (VInstances teachers');;
  set_member (studentData this) "periods" (VInstances periods');;
  set_member (studentData this) "courses" (VInstances courses');;
  set_member (studentData this) "terms" (VInstances terms');;
  set_member (studentData this) "reportingTerms" (VInstances reportingTerms');;
  notInSessionDays' ← mapM (fromData PowerSchoolEvent) (notInSessionDays data);
  set_member (studentData this) "notInSessionDays" (VInstances notInSessionDays');;
  student' ← fromData PowerSchoolStudent (student data);
  set_member (studentData this) "student" (VInstance student');;
  set_member (studentData this) "yearID" (VJson (yearId data));;
  set_member (studentData this) "assignmentCategories"
             (VCategories (Object_values assignmentCategories'));;
  attendanceRecords' ← mapM (fromData PowerSchoolAttendanceRecord) (attendance data);
  set_member (studentData this) "attendanceRecords" (VInstances attendanceRecords');;
  set_member (studentData this) "attendanceCodes" (VInstances attendanceCodes');;
  set_member (studentData this) "finalGrades" (VInstances finalGrades');;
  mret (Resolved (studentData this))
  end.

(** Lines 43-112.  The promise settles with what the callback does on
    the transport's reply. *)
Definition getStudentInfo (client : Client) (this : PowerSchoolUser)
    : JS outcome :=
  let '(err, result) := client (request this) in
  match payload_of result with
  | None => mret (Rejected err)
  | Some data => on_payload this data
  end.


(** ** The same statements in closed form *)

(** The instances that [l.map(d => C.fromData(d))] builds when the next free
    identity is [n]. *)
Definition decode (c : class) (n : nat) (l : list json) : list instance :=
  imap (λ i d, Instance (n + i) c d) l.

(** The dictionary that line 78 leaves, when the next free identity is [n]. *)
Fixpoint built (raw : list RawCategory) (d : dict category) (n : nat)
    : dict category :=
  match raw with
  | [] => d
  | data :: rest =>
      built rest
        (dict_set (raw_id data)
                  (Category n (raw_id data) (raw_fields data) []) d)
        (S n)
  end.

(** The dictionary that line 79 leaves when no push throws: every kept
    assignment appended to the category under its [categoryID]. *)
Definition filed (decoded : list instance) (cats : dict category)
    : dict category :=
  foldl (λ d a, dict_alter (push a) (categoryID a) d)
        cats
        (filter (λ a, is_Some (dict_get (categoryID a) cats)) decoded).

(** A run of member assignments on the object [l]. *)
Definition assign_all (l : nat) (ms : list (string * value))
    (h : gmap nat (gmap string value)) : gmap nat (gmap string value) :=
  foldl (λ h' m, alter (λ o, <[m.1 := m.2]> o) l h') h ms.

(** A run of [storeCacheInfo] calls. *)
Definition store_all (cs : list (string * string * value))
    (a : PowerSchoolAPI) : PowerSchoolAPI :=
  foldl (λ a' c,
           {| cachedInfo :=
                <[c.1.1 := {| keyField := c.1.2; records := c.2 |}]>
                  (cachedInfo a');
              storeCalls := storeCalls a' ++ [(c.1.1, c.1.2)] |})
        a cs.

(** Everything one run of lines 62-109 decodes. *)
Record Decoded := {
  d_schools : list instance;
  d_teachers : list instance;
  d_terms : list instance;
  d_reportingTerms : list instance;
  d_assignments : list instance;
  d_assignmentScores : list instance;
  d_attendanceCodes : list instance;
  d_periods : list instance;
  d_courses : list instance;
  d_finalGrades : list instance;
  d_categories : dict category;
  d_notInSessionDays : list instance;
  d_student : instance;
  d_attendanceRecords : list instance;
  d_next : nat
}.

(** What lines 65-105 decode from [data] when the next free identity is
    [n], in the order the source builds the objects. *)
Definition decoded (data : StudentDataVOs) (n : nat) : Decoded :=
  let n1 := n + length (schools_array data) in
  let n2 := n1 + length (teachers data) in
  let n3 := n2 + length (terms data) in
  let n4 := n3 + length (reportingTerms data) in
  let n5 := n4 + length (assignments data) in
  let n6 := n5 + length (assignmentScores data) in
  let n7 := n6 + length (attendanceCodes data) in
  let n8 := n7 + length (periods data) in
  let n9 := n8 + length (sections data) in
  let n10 := n9 + length (finalGrades data) in
  let n11 := n10 + length (assignmentCategories data) in
  let n12 := n11 + length (notInSessionDays data) in
  {| d_schools := decode PowerSchoolSchool n (schools_array data);
     d_teachers := decode PowerSchoolTeacher n1 (teachers data);
     d_terms := decode PowerSchoolTerm n2 (terms data);
     d_reportingTerms := decode PowerSchoolReportingTerm n3 (reportingTerms data);
     d_assignments := decode PowerSchoolAssignment n4 (assignments data);
     d_assignmentScores := decode PowerSchoolAssignmentScore n5 (assignmentScores data);
     d_attendanceCodes := decode PowerSchoolAttendanceCode n6 (attendanceCodes data);
     d_periods := decode PowerSchoolPeriod n7 (periods data);
     d_courses := decode PowerSchoolCourse n8 (sections data);
     d_finalGrades := decode PowerSchoolFinalGrade n9 (finalGrades data);
     d_categories :=
       filed
         (decode PowerSchoolAssignment n4 (assignments data))
         (built (assignmentCategories data) [] n10);
     d_notInSessionDays := decode PowerSchoolEvent n11 (notInSessionDays data);
     d_student := Instance n12 PowerSchoolStudent (student data);
     d_attendanceRecords :=
       decode PowerSchoolAttendanceRecord (S n12) (attendance data);
     d_next := S n12 + length (attendance data) |}.

(** The arguments of the calls of lines 82-92, in order. *)
Definition stored (D : Decoded) : list (string * string * value) :=
  [ ("teachers", "id", VInstances (d_teachers D));
    ("schools", "schoolNumber", VInstances (d_schools D));
    ("periods", "id", VInstances (d_periods D));
    ("courses", "id", VInstances (d_courses D));
    ("finalGrades", "courseID", VInstances (d_finalGrades D));
    ("terms", "id", VInstances (d_terms D));
    ("reportingTerms", "id", VInstances (d_reportingTerms D));
    ("assignmentCategories", "id",
       VCategories (Object_values (d_categories D)));
    ("assignments", "id", VInstances (d_assignments D));
    ("assignmentScores", "assignmentID", VInstances (d_assignmentScores D));
    ("attendanceCodes", "id", VInstances (d_attendanceCodes D)) ].

(** The members lines 95-107 assign, in order. *)
Definition assigned (data : StudentDataVOs) (D : Decoded)
    : list (string * value) :=
  [ ("schools", VInstances (d_schools D));
    ("teachers", VInstances (d_teachers D));
    ("periods", VInstances (d_periods D));
    ("courses", VInstances (d_courses D));
    ("terms", VInstances (d_terms D));
    ("reportingTerms", VInstances (d_reportingTerms D));
    ("notInSessionDays", VInstances (d_notInSessionDays D));
    ("student", VInstance (d_student D));
    ("yearID", VJson (yearId data));
    ("assignmentCategories",
       VCategories (Object_values (d_categories D)));
    ("attendanceRecords", VInstances (d_attendanceRecords D));
    ("attendanceCodes", VInstances (d_attendanceCodes D));
    ("finalGrades", VInstances (d_finalGrades D)) ].

End Fetch.

(** ** The specification's vocabulary *)

(** The key field the specification prescribes for a collection: "default
    id except schools keyed by school-number, and final-grades /
    assignment-scores keyed by their one-to-many foreign id". *)
Definition prescribed_key (name : string) : string :=
  if decide (name = "schools") then "schoolNumber"
  else if decide (name = "finalGrades") then "courseID"
  else if decide (name = "assignmentScores") then "assignmentID"
  else "id".

(** The collections of the payload, as the specification lists them. *)
Definition payload_collections : list string :=
  [ "schools"; "teachers"; "terms"; "reportingTerms"; "assignments";
    "assignmentScores"; "attendanceCodes"; "periods"; "courses";
    "finalGrades"; "assignmentCategories"; "notInSessionDays";
    "attendance" ].

(** "One store call per collection of the payload", between [w] and [w']. *)
Definition every_collection_stored (w w' : World) : Prop :=
  ∀ name, name ∈ payload_collections → name ∈ (calls_between w w').*1.

(** The collections that lines 82-92 do store. *)
Definition cached_collections : list string :=
  [ "teachers"; "schools"; "periods"; "courses"; "finalGrades"; "terms";
    "reportingTerms"; "assignmentCategories"; "assignments";
    "assignmentScores"; "attendanceCodes" ].

(** The member [member] of the snapshot [l] is a list of records decoded
    from the wire elements [wires], one per element and in their order. *)
Definition holds_list (w : World) (l : nat) (member : string)
    (wires : list json) : Prop :=
  ∃ decoded_records,
    member_of w l member = Some (VInstances decoded_records)
    ∧ wire <$> decoded_records = wires.

(** The snapshot owns a direct list for a collection of the payload, under
    some member. *)
Definition owns_list (w : World) (l : nat) (wires : list json) : Prop :=
  ∃ member, holds_list w l member wires.

(** "The snapshot owns a direct list for every collection of the payload,
    including the assignments and assignmentScores collections", for the
    collections that [fromData] decodes element by element. *)
Definition owns_every_collection (w : World) (l : nat)
    (data : StudentDataVOs) : Prop :=
  Forall (owns_list w l)
    [ teachers data; terms data; reportingTerms data; assignments data;
      assignmentScores data; attendanceCodes data; periods data;
      sections data; finalGrades data; notInSessionDays data;
      attendance data ].


(** ** A small school *)

Module Example.

Definition session0 : PowerSchoolSession :=
  {| userId := 41; s_userType := 2; serviceTicket := "ticket";
     serverInfo := {| apiVersion := "2.1" |};
     serverCurrentTime := None; studentIDs := 7 |}.

Definition world0 : World :=
  {| next_oid := 0; heap := ∅;
     api := {| cachedInfo := ∅; storeCalls := [] |} |}.

(** The user and the world that [new PowerSchoolUser(session0, api)]
    leaves. *)
Definition this : PowerSchoolUser :=
  {| session := session0; userID := 41; userType := 2; studentData := 0 |}.

Definition world1 : World :=
  {| next_oid := 1; heap := {[ 0 := ∅ ]};
     api := {| cachedInfo := ∅; storeCalls := [] |} |}.

(** A decoder that reads the number under ["categoryId"]. *)
Definition categoryID_of (j : json) : Z :=
  match j with
  | JObj (("categoryId", JNum n) :: _) => n
  | _ => 0
  end.

Definition homework : json := JObj [("categoryId", JNum 7); ("name", JStr "Essay")].
Definition quiz : json := JObj [("categoryId", JNum 7); ("name", JStr "Quiz 1")].
Definition orphan : json := JObj [("categoryId", JNum 9); ("name", JStr "Field trip")].

Definition high_school : json := JObj [("schoolNumber", JNum 100)].
Definition middle_school : json := JObj [("schoolNumber", JNum 200)].

Definition data : StudentDataVOs :=
  {| schools := high_school;
     teachers := [JObj [("id", JNum 1)]];
     terms := [JObj [("id", JNum 5)]];
     reportingTerms := [];
     assignments := [homework; quiz; orphan];
     assignmentScores := [JObj [("assignmentId", JNum 1)]];
     attendanceCodes := [];
     periods := [];
     sections := [JObj [("id", JNum 10)]];
     finalGrades := [];
     assignmentCategories :=
       [ {| raw_id := 7; raw_fields := JObj [("name", JStr "Work")] |};
         {| raw_id := 3; raw_fields := JObj [("name", JStr "Tests")] |} ];
     notInSessionDays := [JObj [("description", JStr "Holiday")]];
     student := JObj [("firstName", JStr "Ada")];
     yearId := JNum 28;
     attendance := [JObj [("codeId", JNum 2)]] |}.

(** The same payload with [schools] arriving as a list of two. *)
Definition data_two_schools : StudentDataVOs :=
  {| schools := JArr [high_school; middle_school];
     teachers := teachers data; terms := terms data;
     reportingTerms := reportingTerms data; assignments := assignments data;
     assignmentScores := assignmentScores data;
     attendanceCodes := attendanceCodes data; periods := periods data;
     sections := sections data; finalGrades := finalGrades data;
     assignmentCategories := assignmentCategories data;
     notInSessionDays := notInSessionDays data; student := student data;
     yearId := JNum 29; attendance := attendance data |}.

Definition reply_of (d : StudentDataVOs) : option Result :=
  Some {| return_ := Some {| studentDataVOs := Some d |} |}.

(** Transports: a normal reply, a reply with the list of schools, an error
    that comes with a complete payload, an error with no result, and a
    reply without [return] and without an error. *)
Definition client_ok : Client := λ _, (None, reply_of data).
Definition client_two_schools : Client := λ _, (None, reply_of data_two_schools).
Definition client_error : Client := λ _, (Some "ECONNRESET", None).
Definition client_empty : Client := λ _, (None, Some {| return_ := None |}).

(** The objects that a fetch of [data] builds in [world1]. *)
Definition essay : instance := Instance 4 PowerSchoolAssignment homework.
Definition quiz1 : instance := Instance 5 PowerSchoolAssignment quiz.
Definition trip : instance := Instance 6 PowerSchoolAssignment orphan.
Definition work : category :=
  Category 9 7 (JObj [("name", JStr "Work")]) [essay; quiz1].
Definition tests : category :=
  Category 10 3 (JObj [("name", JStr "Tests")]) [].

End Example.

(** ** Further examples *)

Module Edge.

(** A date conversion that accepts one time stamp and throws on the rest. *)
Definition toISOString (t : string) : option string :=
  if decide (t = "Nov 3, 2020 10:00:00 AM") then Some "2020-11-03T10:00:00.000Z"
  else None.

Definition session_with_time : PowerSchoolSession :=
  {| userId := 41; s_userType := 2; serviceTicket := "ticket";
     serverInfo := {| apiVersion := "2.1" |};
     serverCurrentTime := Some "Nov 3, 2020 10:00:00 AM"; studentIDs := 7 |}.

Definition session_bad_time : PowerSchoolSession :=
  {| userId := 41; s_userType := 2; serviceTicket := "ticket";
     serverInfo := {| apiVersion := "2.1" |};
     serverCurrentTime := Some "yesterday"; studentIDs := 7 |}.

(** The user and the world that [new PowerSchoolUser(session_with_time, api)]
    leaves from [Example.world0]. *)
Definition user_with_time : PowerSchoolUser :=
  {| session :=
       {| userId := 41; s_userType := 2; serviceTicket := "ticket";
          serverInfo := {| apiVersion := "2.1" |};
          serverCurrentTime := Some "2020-11-03T10:00:00.000Z";
          studentIDs := 7 |};
     userID := 41; userType := 2; studentData := 0 |}.

(** A second user, created after [Example.this]. *)
Definition other : PowerSchoolUser :=
  {| session := Example.session0; userID := 41; userType := 2;
     studentData := 1 |}.

Definition world2 : World :=
  {| next_oid := 2; heap := <[1 := ∅]> {[ 0 := ∅ ]};
     api := {| cachedInfo := ∅; storeCalls := [] |} |}.

(** The payload of [Example.data] with a second category that reuses
    id 7. *)
Definition data_duplicate_id : StudentDataVOs :=
  {| schools := schools Example.data;
     teachers := teachers Example.data; terms := terms Example.data;
     reportingTerms := reportingTerms Example.data;
     assignments := assignments Example.data;
     assignmentScores := assignmentScores Example.data;
     attendanceCodes := attendanceCodes Example.data;
     periods := periods Example.data;
     sections := sections Example.data;
     finalGrades := finalGrades Example.data;
     assignmentCategories :=
       [ {| raw_id := 7; raw_fields := JObj [("name", JStr "Work")] |};
         {| raw_id := 3; raw_fields := JObj [("name", JStr "Tests")] |};
         {| raw_id := 7; raw_fields := JObj [("name", JStr "Homework")] |} ];
     notInSessionDays := notInSessionDays Example.data;
     student := student Example.data;
     yearId := yearId Example.data;
     attendance := attendance Example.data |}.

Definition client_duplicate_id : Client :=
  λ _, (None, Example.reply_of data_duplicate_id).


(** The objects a fetch of [data_duplicate_id] builds in [Example.world1]. *)
Definition homework_category : category :=
  Category 11 7 (JObj [("name", JStr "Homework")])
           [Example.essay; Example.quiz1].
Definition tests_category : category :=
  Category 10 3 (JObj [("name", JStr "Tests")]) [].

End Edge.

(** * Properties *)

(** ** Running the statements *)

Lemma bind_run {A B} (m : JS A) (f : A → JS B) (w : World) :
  (m ≫= f) w = f (m w).1 (m w).2.
Proof. unfold mbind, JS_bind. by destruct (m w). Qed.

Lemma mapM_fromData c l w :
  mapM (fromData c) l w =
  (decode c (next_oid w) l,
   {| next_oid := next_oid w + length l; heap := heap w; api := api w |}).
Proof.
  revert w. induction l as [|d l IH]; intros w.
  - destruct w; simpl. unfold mret, JS_ret. by rewrite Nat.add_0_r.
  - simpl. rewrite bind_run. unfold fromData at 1. rewrite bind_run. simpl.
    rewrite IH. unfold mret, JS_ret, decode. simpl.
    rewrite Nat.add_0_r. f_equal.
    + f_equal. apply imap_ext. intros i x _. simpl. f_equal. lia.
    + f_equal. lia.
Qed.

Lemma decode_cons c n d l :
  decode c n (d :: l) = Instance n c d :: decode c (S n) l.
Proof.
  unfold decode. simpl. rewrite Nat.add_0_r. f_equal.
  apply imap_ext. intros i x _. simpl. f_equal. lia.
Qed.

Lemma length_decode c n l : length (decode c n l) = length l.
Proof. unfold decode. by rewrite length_imap. Qed.

Lemma oid_decode c n l : oid <$> decode c n l = seq n (length l).
Proof.
  revert n. induction l as [|d l IH]; intros n; [done|].
  rewrite decode_cons. simpl. by rewrite IH.
Qed.

Lemma wire_decode c n l : wire <$> decode c n l = l.
Proof.
  revert n. induction l as [|d l IH]; intros n; [done|].
  rewrite decode_cons. simpl. by rewrite IH.
Qed.

Lemma NoDup_oid_decode c n l : NoDup (oid <$> decode c n l).
Proof. rewrite oid_decode. apply NoDup_seq. Qed.

Lemma build_categories_run raw d w :
  build_categories raw d w =
  (built raw d (next_oid w),
   {| next_oid := next_oid w + length raw; heap := heap w; api := api w |}).
Proof.
  revert d w. induction raw as [|data rest IH]; intros d w.
  - destruct w; simpl. unfold mret, JS_ret. by rewrite Nat.add_0_r.
  - simpl. rewrite bind_run. unfold Category_fromData at 1.
    rewrite bind_run. simpl. rewrite IH. simpl. do 2 f_equal. lia.
Qed.

Lemma bind_eq {A B} (m : JS A) (f : A → JS B) w a w' r :
  m w = (a, w') → f a w' = r → (m ≫= f) w = r.
Proof. intros Hm <-. unfold mbind, JS_bind. by rewrite Hm. Qed.

(** Run the first statement of a sequence. *)
Ltac run_statement :=
  lazymatch goal with
  | |- (_ ≫= _) _ = _ =>
      eapply bind_eq;
      [ lazymatch goal with
        | |- mapM _ _ _ = _ => apply mapM_fromData
        | |- build_categories _ _ _ = _ => apply build_categories_run
        | |- _ => reflexivity
        end
      | cbn [next_oid heap api cachedInfo storeCalls] ]
  end.


(** ** The cache and the store *)

Lemma storeCalls_store_all cs a :
  storeCalls (store_all cs a) = storeCalls a ++ cs.*1.
Proof.
  revert a. induction cs as [|[[name key] v] cs IH]; intros a; simpl.
  - by rewrite app_nil_r.
  - unfold store_all in *. simpl. rewrite IH. simpl.
    by rewrite <- app_assoc.
Qed.

Lemma cachedInfo_store_all_last cs a name key v :
  (name, key, v) ∈ cs →
  NoDup (cs.*1.*1) →
  cachedInfo (store_all cs a) !! name = Some {| keyField := key; records := v |}.
Proof.
  revert a. induction cs as [|c cs IH]; intros a Hin Hnd.
  - by apply elem_of_nil in Hin.
  - simpl in Hnd. apply NoDup_cons in Hnd as [Hnotin Hnd].
    apply elem_of_cons in Hin as [<-|Hin].
    + clear IH. simpl. unfold store_all. simpl.
      assert (Hkeep : ∀ cs' a', name ∉ cs'.*1.*1 →
        cachedInfo (foldl (λ a'' c0,
           {| cachedInfo :=
                <[c0.1.1 := {| keyField := c0.1.2; records := c0.2 |}]>
                  (cachedInfo a'');
              storeCalls := storeCalls a'' ++ [(c0.1.1, c0.1.2)] |}) a' cs')
          !! name = cachedInfo a' !! name).
      { induction cs' as [|c' cs' IH']; intros a' Hn; [done|].
        simpl in *. apply not_elem_of_cons in Hn as [Hne Hn].
        rewrite IH' by done. simpl. by rewrite lookup_insert_ne. }
      rewrite Hkeep by done. simpl. by rewrite lookup_insert_eq.
    + unfold store_all in *. simpl. by apply IH.
Qed.

Lemma calls_between_store_all cs w n h :
  calls_between w {| next_oid := n; heap := h; api := store_all cs (api w) |}
  = cs.*1.
Proof.
  unfold calls_between. simpl. rewrite storeCalls_store_all.
  by rewrite drop_app_length.
Qed.

Lemma lookup_assign_all l ms h o :
  h !! l = Some o →
  assign_all l ms h !! l = Some (foldl (λ o' m, <[m.1 := m.2]> o') o ms).
Proof.
  revert h o. induction ms as [|m ms IH]; intros h o Ho; [done|].
  unfold assign_all in *. simpl. apply IH.
  by rewrite lookup_alter_eq, Ho.
Qed.

Lemma dom_assign_all l ms h : dom (assign_all l ms h) = dom h.
Proof.
  revert h. induction ms as [|m ms IH]; intros h; [done|].
  unfold assign_all in *. simpl. rewrite IH. apply dom_alter_L.
Qed.

Lemma lookup_assign_all_ne l l' ms h :
  l ≠ l' → assign_all l ms h !! l' = h !! l'.
Proof.
  intros Hne. revert h. induction ms as [|m ms IH]; intros h; [done|].
  unfold assign_all in *. simpl. rewrite IH. by rewrite lookup_alter_ne.
Qed.

(** Assigning members in sequence: the last assignment to a name wins and
    other members keep their value. *)
Lemma lookup_foldl_insert (ms : list (string * value)) (o : gmap string value) k v :
  (k, v) ∈ ms → NoDup ms.*1 →
  foldl (λ o' m, <[m.1 := m.2]> o') o ms !! k = Some v.
Proof.
  revert o. induction ms as [|m ms IH]; intros o Hin Hnd.
  - by apply elem_of_nil in Hin.
  - simpl in Hnd. apply NoDup_cons in Hnd as [Hnotin Hnd]. simpl.
    apply elem_of_cons in Hin as [<-|Hin]; [|by apply IH].
    clear IH. simpl.
    assert (Hkeep : ∀ ms' (o' : gmap string value), k ∉ ms'.*1 →
      foldl (λ o'' m, <[m.1 := m.2]> o'') o' ms' !! k = o' !! k).
    { induction ms' as [|m' ms' IH']; intros o' Hn; [done|].
      simpl in *. apply not_elem_of_cons in Hn as [Hne Hn].
      rewrite IH' by done. by rewrite lookup_insert_ne. }
    rewrite Hkeep by done. by rewrite lookup_insert_eq.
Qed.

Lemma lookup_foldl_insert_other (ms : list (string * value)) (o : gmap string value) k :
  k ∉ ms.*1 →
  foldl (λ o' m, <[m.1 := m.2]> o') o ms !! k = o !! k.
Proof.
  revert o. induction ms as [|m ms IH]; intros o Hn; [done|].
  simpl in *. apply not_elem_of_cons in Hn as [Hne Hn].
  rewrite IH by done. by rewrite lookup_insert_ne.
Qed.

(** ** The dictionary *)

Section Dict.

Context {A : Type}.
Implicit Types (d : dict A) (k : Z) (v : A).

Lemma dict_get_elem k v d : dict_get k d = Some v → (k, v) ∈ d.
Proof.
  induction d as [|[k' v'] d IH]; csimpl; [done|].
  case_decide as Hk.
  - intros [= ->]. subst. apply list_elem_of_here.
  - intros H. apply list_elem_of_further. auto.
Qed.

Lemma elem_dict_get k v d : NoDup d.*1 → (k, v) ∈ d → dict_get k d = Some v.
Proof.
  induction d as [|[k' v'] d IH]; csimpl; intros Hnd Hin.
  - by apply elem_of_nil in Hin.
  - apply NoDup_cons in Hnd as [Hfresh Hnd].
    apply elem_of_cons in Hin as [[= -> ->]|Hin].
    + by rewrite decide_True.
    + rewrite decide_False; [by apply IH|].
      intros ->. apply Hfresh.
      by apply (list_elem_of_fmap_2 fst) in Hin.
Qed.

Lemma dict_get_None k d : dict_get k d = None ↔ k ∉ d.*1.
Proof.
  induction d as [|[k' v'] d IH]; csimpl.
  - split; [intros _; apply not_elem_of_nil|done].
  - case_decide as Hk.
    + subst. split; [done|]. intros H. destruct H. apply list_elem_of_here.
    + rewrite IH, not_elem_of_cons. split; [intros Hn|intros [_ Hn]]; [|done].
      split; [congruence|done].
Qed.

Lemma dict_get_set k' k v d :
  dict_get k' (dict_set k v d) = if decide (k' = k) then Some v else dict_get k' d.
Proof.
  induction d as [|[k0 v0] d IH]; csimpl.
  - repeat case_decide; congruence.
  - repeat (case_decide; csimpl; subst); try congruence.
Qed.

Lemma dict_set_keys k v d :
  (dict_set k v d).*1 = if decide (k ∈ d.*1) then d.*1 else d.*1 ++ [k].
Proof.
  induction d as [|[k0 v0] d IH]; csimpl; [done|].
  destruct (decide (k0 = k)) as [->|Hne]; csimpl.
  - destruct (decide (k ∈ k :: d.*1)) as [|Hn]; [done|].
    destruct Hn. apply list_elem_of_here.
  - rewrite IH.
    destruct (decide (k ∈ d.*1)) as [Hin|Hnin],
             (decide (k ∈ k0 :: d.*1)) as [Hin'|Hnin']; try done.
    + destruct Hnin'. by apply list_elem_of_further.
    + apply elem_of_cons in Hin' as [->|Hin']; done.
Qed.

Lemma dict_set_NoDup k v d : NoDup d.*1 → NoDup (dict_set k v d).*1.
Proof.
  intros Hnd. rewrite dict_set_keys. case_decide; [done|].
  apply NoDup_app. split_and!; [done| |apply NoDup_singleton].
  intros x Hx Hx'. apply list_elem_of_singleton in Hx'. by subst.
Qed.

Lemma dict_alter_keys f k d : (dict_alter f k d).*1 = d.*1.
Proof.
  induction d as [|[k0 v0] d IH]; csimpl; [done|].
  case_decide; csimpl; [done|]. by rewrite IH.
Qed.

Lemma dict_get_alter f k' k d :
  dict_get k' (dict_alter f k d) =
  if decide (k' = k) then f <$> dict_get k d else dict_get k' d.
Proof.
  induction d as [|[k0 v0] d IH]; csimpl.
  - by case_decide.
  - repeat (case_decide; csimpl; subst); try congruence.
Qed.

(** [Object.values] lists every own property once. *)
Lemma Object_values_Permutation d : Object_values d ≡ₚ d.*2.
Proof.
  unfold Object_values. apply fmap_Permutation.
  rewrite merge_sort_Permutation. apply filter_app_complement.
Qed.

Lemma elem_of_Object_values v d :
  v ∈ Object_values d ↔ ∃ k, (k, v) ∈ d.
Proof.
  rewrite Object_values_Permutation, list_elem_of_fmap. split.
  - intros [[k v'] [-> Hin]]. by exists k.
  - intros [k Hin]. by exists (k, v).
Qed.

Lemma length_Object_values d : length (Object_values d) = length d.
Proof. by rewrite Object_values_Permutation, length_fmap. Qed.

End Dict.

(** ** Counting objects *)

Lemma occurrences_cons a x l :
  occurrences a (x :: l) =
  (if decide (oid x = oid a) then 1 else 0) + occurrences a l.
Proof.
  unfold occurrences. rewrite filter_cons. by case_decide.
Qed.

Lemma occurrences_absent a (l : list instance) : oid a ∉ oid <$> l → occurrences a l = 0.
Proof.
  induction l as [|x l IH]; [done|]. rewrite fmap_cons, not_elem_of_cons.
  intros [Hne Hl]. rewrite occurrences_cons, decide_False by done.
  by rewrite IH.
Qed.

Lemma oid_filter_absent (Q : instance → Prop) `{!∀ x, Decision (Q x)} a
    (l : list instance) :
  oid a ∉ oid <$> l → oid a ∉ oid <$> filter Q l.
Proof.
  intros Hn Hin. apply Hn.
  apply list_elem_of_fmap in Hin as [x [-> Hx]].
  apply list_elem_of_filter in Hx as [_ Hx]. by apply list_elem_of_fmap_2.
Qed.

(** In an array of distinct objects, filtering keeps an object once or not
    at all. *)
Lemma occurrences_filter (Q : instance → Prop) `{!∀ x, Decision (Q x)} a
    (l : list instance) :
  NoDup (oid <$> l) → a ∈ l →
  occurrences a (filter Q l) = if decide (Q a) then 1 else 0.
Proof.
  induction l as [|x l IH]; intros Hnd Hin.
  - by apply elem_of_nil in Hin.
  - rewrite fmap_cons in Hnd. apply NoDup_cons in Hnd as [Hx Hnd].
    apply elem_of_cons in Hin as [->|Hin].
    + destruct (decide (Q x)) as [HQ|HQ].
      * rewrite filter_cons_True by done.
        rewrite occurrences_cons, decide_True by done.
        rewrite occurrences_absent; [done|by apply oid_filter_absent].
      * rewrite filter_cons_False by done.
        rewrite occurrences_absent; [done|by apply oid_filter_absent].
    + assert (oid x ≠ oid a) as Hne.
      { intros Heq. apply Hx. rewrite Heq. by apply list_elem_of_fmap_2. }
      destruct (decide (Q x)) as [HQ|HQ].
      * rewrite filter_cons_True by done.
        rewrite occurrences_cons, decide_False by done. by apply IH.
      * rewrite filter_cons_False by done. by apply IH.
Qed.

(** ** Category aggregation (lines 77-79) *)

(** Every category of a dictionary is filed under its own [id] and has no
    assignment yet. *)
Definition fresh_categories (d : dict category) : Prop :=
  ∀ k c, dict_get k d = Some c → cat_id c = k ∧ cat_assignments c = [].

Lemma built_fresh raw d n :
  fresh_categories d → fresh_categories (built raw d n).
Proof.
  revert d n. induction raw as [|data rest IH]; intros d n Hd; [done|].
  simpl. apply IH. intros k c. rewrite dict_get_set.
  case_decide; [|by apply Hd]. by intros [= <-].
Qed.

Lemma built_NoDup raw d n : NoDup d.*1 → NoDup (built raw d n).*1.
Proof.
  revert d n. induction raw as [|data rest IH]; intros d n Hd; [done|].
  simpl. by apply IH, dict_set_NoDup.
Qed.

Lemma built_keys raw d n :
  NoDup (d.*1 ++ (raw_id <$> raw)) →
  (built raw d n).*1 = d.*1 ++ (raw_id <$> raw).
Proof.
  revert d n. induction raw as [|data rest IH]; intros d n Hnd.
  - csimpl. by rewrite app_nil_r.
  - csimpl. rewrite fmap_cons in Hnd.
    assert (raw_id data ∉ d.*1) as Hfresh.
    { apply NoDup_app in Hnd as (_ & Hdisj & _). intros Hin.
      apply (Hdisj _ Hin), list_elem_of_here. }
    assert ((dict_set (raw_id data)
               (Category n (raw_id data) (raw_fields data) []) d).*1
            = d.*1 ++ [raw_id data]) as Hkeys.
    { rewrite dict_set_keys. by rewrite decide_False. }
    rewrite IH; rewrite Hkeys, <- app_assoc; done.
Qed.

Lemma built_keys_elem raw d n k :
  k ∈ (built raw d n).*1 ↔ k ∈ d.*1 ∨ k ∈ raw_id <$> raw.
Proof.
  revert d n. induction raw as [|data rest IH]; intros d n; csimpl.
  - rewrite elem_of_nil. split; [auto|]. by intros [?|[]].
  - rewrite IH, dict_set_keys, elem_of_cons.
    destruct (decide (raw_id data ∈ d.*1)) as [Hin|Hnin].
    + split; [intros [?|?]; auto|]. intros [?|[->|?]]; auto.
    + rewrite elem_of_app, list_elem_of_singleton.
      split; [intros [[?|?]|?]; auto|]. intros [?|[?|?]]; auto.
Qed.

Lemma fresh_nil : fresh_categories [].
Proof. by intros k c. Qed.

Lemma keyed_ids (d : dict category) :
  NoDup d.*1 → (∀ k c, dict_get k d = Some c → cat_id c = k) →
  cat_id <$> d.*2 = d.*1.
Proof.
  intros Hnd Hd. rewrite <- list_fmap_compose.
  apply list_fmap_ext. intros i [k c] Hi. simpl.
  apply Hd, elem_dict_get; [done|]. by apply list_elem_of_lookup_2 in Hi.
Qed.

Section Categories.

Variable categoryID_of : json → Z.

Local Abbreviation categoryID := (categoryID categoryID_of).

(** The [forEach] of line 79 appends to the category under key [k] the
    assignments with that [categoryID], in order. *)
Lemma dict_get_pushes l cats k :
  dict_get k (foldl (λ d a, dict_alter (push a) (categoryID a) d) cats l)
  = (λ c, Category (cat_oid c) (cat_id c) (cat_wire c)
            (cat_assignments c ++ filter (λ a, categoryID a = k) l))
      <$> dict_get k cats.
Proof.
  revert cats. induction l as [|a l IH]; intros cats.
  - simpl. destruct (dict_get k cats) as [[]|]; simpl; [|done].
    by rewrite app_nil_r.
  - simpl. rewrite IH, dict_get_alter, filter_cons.
    destruct (decide (k = categoryID a)) as [->|Hne].
    + rewrite decide_True by done.
      destruct (dict_get (categoryID a) cats) as [c|]; simpl; [|done].
      by rewrite <- app_assoc.
    + rewrite decide_False by done. done.
Qed.

Lemma pushes_keys l cats :
  (foldl (λ d a, dict_alter (push a) (categoryID a) d) cats l).*1 = cats.*1.
Proof.
  revert cats. induction l as [|a l IH]; intros cats; [done|].
  simpl. by rewrite IH, dict_alter_keys.
Qed.

Lemma filed_keys decoded cats :
  (filed categoryID_of decoded cats).*1 = cats.*1.
Proof. apply pushes_keys. Qed.

(** The pushes of line 79 find their category as long as every assignment
    of the list has its key in the dictionary. *)
Lemma forEach_push_finds_category (l : list instance) cats :
  (∀ a, a ∈ l → is_Some (dict_get (categoryID a) cats)) →
  forEach_push categoryID_of l cats
  = Some (foldl (λ d a, dict_alter (push a) (categoryID a) d) cats l).
Proof.
  revert cats. induction l as [|a l IH]; intros cats Hl; [done|].
  simpl. unfold push_to_category.
  destruct (Hl a (list_elem_of_here _ _)) as [c Hc]. rewrite Hc. simpl.
  apply IH. intros a' Ha'. rewrite dict_get_alter.
  destruct (Hl a' (list_elem_of_further _ _ _ Ha')) as [c' Hc'].
  case_decide as Hk; [|by eexists].
  rewrite <- Hk, Hc'. by eexists.
Qed.

(** Line 79 never throws: the [filter] kept only assignments whose key is
    in the dictionary. *)
Lemma add_to_categories_filed (decoded : list instance) cats :
  add_to_categories categoryID_of decoded cats
  = Some (filed categoryID_of decoded cats).
Proof.
  unfold add_to_categories, filed. apply forEach_push_finds_category.
  intros a Ha. by apply list_elem_of_filter in Ha as [Hsome _].
Qed.

(** Without the [filter], the first assignment whose [categoryID] is no
    key makes the [forEach] throw. *)
Lemma forEach_push_throws (l : list instance) cats a :
  a ∈ l → dict_get (categoryID a) cats = None →
  forEach_push categoryID_of l cats = None.
Proof.
  revert cats. induction l as [|x l IH]; intros cats Hin Hnone.
  - by apply elem_of_nil in Hin.
  - simpl. unfold push_to_category.
    destruct (dict_get (categoryID x) cats) as [c|] eqn:Hx; [|done]. simpl.
    apply elem_of_cons in Hin as [->|Hin]; [congruence|].
    apply IH; [done|]. rewrite dict_get_alter.
    case_decide as Hk; [|done]. rewrite Hk in Hnone. congruence.
Qed.

(** After line 79 a category holds exactly the decoded assignments that
    carry its [id], in the order of the payload. *)
Lemma category_contents (decoded : list instance) cats k c :
  fresh_categories cats →
  dict_get k (filed categoryID_of decoded cats) = Some c →
  cat_id c = k
  ∧ cat_assignments c = filter (λ a, categoryID a = k) decoded.
Proof.
  intros Hfresh. unfold filed. rewrite dict_get_pushes.
  intros Hc. apply fmap_Some in Hc as (c0 & Hc0 & ->).
  destruct (Hfresh _ _ Hc0) as [Hid Hnil]. simpl. split; [done|].
  rewrite Hnil. simpl. rewrite list_filter_filter.
  apply list_filter_iff. intros a. split; [by intros [? _]|].
  intros Ha. split; [done|]. rewrite Ha. by eexists.
Qed.

End Categories.

(** ** The callback, run *)

Section Run.

Variable categoryID_of : json → Z.

(** Lines 62-109 always run to [resolve(this.studentData)]; this is the
    world they leave. *)
Lemma on_payload_run this data w :
  on_payload categoryID_of this data w =
  (Resolved (studentData this),
   let D := decoded categoryID_of data (next_oid w) in
   {| next_oid := d_next D;
      heap := assign_all (studentData this) (assigned data D) (heap w);
      api := store_all (stored D) (api w) |}).
Proof.
  unfold on_payload. repeat run_statement.
  rewrite add_to_categories_filed. cbv beta iota.
  repeat run_statement. reflexivity.
Qed.

(** The guard of line 61 decides between the two ways the promise
    settles. *)
Lemma getStudentInfo_payload client this w data :
  payload_of (client (request this)).2 = Some data →
  getStudentInfo categoryID_of client this w =
  (Resolved (studentData this),
   let D := decoded categoryID_of data (next_oid w) in
   {| next_oid := d_next D;
      heap := assign_all (studentData this) (assigned data D) (heap w);
      api := store_all (stored D) (api w) |}).
Proof.
  intros Hp. unfold getStudentInfo.
  destruct (client (request this)) as [err result]. simpl in Hp.
  rewrite Hp. apply on_payload_run.
Qed.

Lemma getStudentInfo_no_payload client this w :
  payload_of (client (request this)).2 = None →
  getStudentInfo categoryID_of client this w =
  (Rejected (client (request this)).1, w).
Proof.
  intros Hp. unfold getStudentInfo.
  destruct (client (request this)) as [err result]. simpl in *.
  by rewrite Hp.
Qed.

Lemma resolved_payload client this w l :
  (getStudentInfo categoryID_of client this w).1 = Resolved l →
  ∃ data, payload_of (client (request this)).2 = Some data.
Proof.
  intros H. destruct (payload_of (client (request this)).2) as [data|] eqn:Hp.
  - by exists data.
  - by rewrite getStudentInfo_no_payload in H.
Qed.

Lemma rejected_no_payload client this w e :
  (getStudentInfo categoryID_of client this w).1 = Rejected e →
  payload_of (client (request this)).2 = None.
Proof.
  intros H. destruct (payload_of (client (request this)).2) as [data|] eqn:Hp.
  - by rewrite (getStudentInfo_payload _ _ _ _ Hp) in H.
  - done.
Qed.

End Run.

(** ** What a successful fetch leaves behind *)

Section Fetched.

Variable categoryID_of : json → Z.

Local Abbreviation categoryID := (categoryID categoryID_of).
Local Abbreviation getStudentInfo := (getStudentInfo categoryID_of).
Local Abbreviation decoded := (decoded categoryID_of).

Lemma stored_names D : (stored D).*1.*1 = cached_collections.
Proof. reflexivity. Qed.

Lemma assigned_names data D :
  (assigned data D).*1 =
  [ "schools"; "teachers"; "periods"; "courses"; "terms"; "reportingTerms";
    "notInSessionDays"; "student"; "yearID"; "assignmentCategories";
    "attendanceRecords"; "attendanceCodes"; "finalGrades" ].
Proof. reflexivity. Qed.

Lemma NoDup_cached_collections : NoDup cached_collections.
Proof. apply (bool_decide_unpack _). by vm_compute. Qed.

Lemma NoDup_assigned_names data D : NoDup (assigned data D).*1.
Proof. rewrite assigned_names. apply (bool_decide_unpack _). by vm_compute. Qed.

(** Every member assigned by lines 95-107 holds its value afterwards. *)
Lemma fetch_member client this w data member v :
  payload_of (client (request this)).2 = Some data →
  allocated (studentData this) w →
  (member, v) ∈ assigned data (decoded data (next_oid w)) →
  member_of (getStudentInfo client this w).2 (studentData this) member
  = Some v.
Proof.
  intros Hp [o Ho] Hin. rewrite (getStudentInfo_payload _ _ _ _ _ Hp).
  unfold member_of. cbn [snd heap].
  rewrite (lookup_assign_all _ _ _ _ Ho). cbn [mbind option_bind].
  apply lookup_foldl_insert; [done|apply NoDup_assigned_names].
Qed.

(** Members that lines 95-107 do not assign keep what they held. *)
Lemma fetch_member_other client this w data member :
  payload_of (client (request this)).2 = Some data →
  member ∉ (assigned data (decoded data (next_oid w))).*1 →
  member_of (getStudentInfo client this w).2 (studentData this) member
  = member_of w (studentData this) member.
Proof.
  intros Hp Hn. rewrite (getStudentInfo_payload _ _ _ _ _ Hp).
  unfold member_of. cbn [snd heap].
  destruct (heap w !! studentData this) as [o|] eqn:Ho.
  - rewrite (lookup_assign_all _ _ _ _ Ho). cbn [mbind option_bind].
    by apply lookup_foldl_insert_other.
  - assert (assign_all (studentData this)
              (assigned data (decoded data (next_oid w))) (heap w)
            !! studentData this = None) as ->; [|done].
    apply not_elem_of_dom. rewrite dom_assign_all. by apply not_elem_of_dom.
Qed.

(** Every collection passed to [storeCacheInfo] by lines 82-92 is in the
    cache afterwards, under the key field of the call. *)
Lemma fetch_cached client this w data name key v :
  payload_of (client (request this)).2 = Some data →
  (name, key, v) ∈ stored (decoded data (next_oid w)) →
  cachedInfo (api (getStudentInfo client this w).2) !! name
  = Some {| keyField := key; records := v |}.
Proof.
  intros Hp Hin. rewrite (getStudentInfo_payload _ _ _ _ _ Hp).
  cbn [snd api]. apply cachedInfo_store_all_last; [done|].
  rewrite stored_names. apply NoDup_cached_collections.
Qed.

Lemma fetch_calls client this w data :
  payload_of (client (request this)).2 = Some data →
  calls_between w (getStudentInfo client this w).2
  = (stored (decoded data (next_oid w))).*1.
Proof.
  intros Hp. rewrite (getStudentInfo_payload _ _ _ _ _ Hp).
  apply calls_between_store_all.
Qed.

Lemma fetched_assignments client this w data :
  payload_of (client (request this)).2 = Some data →
  instances_of (lookupAll (api (getStudentInfo client this w).2) "assignments")
  = d_assignments (decoded data (next_oid w)).
Proof.
  intros Hp. unfold lookupAll.
  rewrite (fetch_cached _ _ _ _ "assignments" "id"
             (VInstances (d_assignments (decoded data (next_oid w)))) Hp);
    [done|].
  do 8 apply list_elem_of_further. apply list_elem_of_here.
Qed.

Lemma fetched_categories client this w data :
  payload_of (client (request this)).2 = Some data →
  allocated (studentData this) w →
  categories_of (member_of (getStudentInfo client this w).2
                   (studentData this) "assignmentCategories")
  = Object_values (d_categories (decoded data (next_oid w))).
Proof.
  intros Hp Ha.
  rewrite (fetch_member _ _ _ _ "assignmentCategories"
             (VCategories (Object_values
                (d_categories (decoded data (next_oid w))))) Hp Ha);
    [done|].
  do 9 apply list_elem_of_further. apply list_elem_of_here.
Qed.

(** The categories of one fetch have distinct keys; each is filed under
    its [id] and holds the decoded assignments that carry that [id]. *)
Lemma d_categories_NoDup data n : NoDup (d_categories (decoded data n)).*1.
Proof.
  simpl. rewrite filed_keys. apply built_NoDup, NoDup_nil_2.
Qed.

Lemma d_categories_get data n k c :
  dict_get k (d_categories (decoded data n)) = Some c →
  cat_id c = k
  ∧ cat_assignments c
    = filter (λ a, categoryID a = k) (d_assignments (decoded data n)).
Proof. apply category_contents, built_fresh, fresh_nil. Qed.

Lemma d_categories_entry data n c :
  c ∈ Object_values (d_categories (decoded data n)) →
  dict_get (cat_id c) (d_categories (decoded data n)) = Some c.
Proof.
  intros Hc. apply elem_of_Object_values in Hc as [k Hk].
  apply elem_dict_get in Hk; [|apply d_categories_NoDup].
  by destruct (d_categories_get _ _ _ _ Hk) as [-> _].
Qed.

Lemma category_occurrences data n a c :
  a ∈ d_assignments (decoded data n) →
  c ∈ Object_values (d_categories (decoded data n)) →
  occurrences a (cat_assignments c)
  = if decide (categoryID a = cat_id c) then 1 else 0.
Proof.
  intros Ha Hc. apply d_categories_entry, d_categories_get in Hc as [_ ->].
  apply occurrences_filter; [apply NoDup_oid_decode|done].
Qed.

Lemma categories_same_id data n c c' :
  c ∈ Object_values (d_categories (decoded data n)) →
  c' ∈ Object_values (d_categories (decoded data n)) →
  cat_id c = cat_id c' → c = c'.
Proof.
  intros Hc Hc' Hid. apply d_categories_entry in Hc, Hc'.
  rewrite Hid in Hc. congruence.
Qed.

Lemma category_ids data n :
  NoDup (raw_id <$> assignmentCategories data) →
  cat_id <$> Object_values (d_categories (decoded data n))
  ≡ₚ raw_id <$> assignmentCategories data.
Proof.
  intros Hnd. rewrite Object_values_Permutation.
  rewrite keyed_ids.
  - simpl. rewrite filed_keys. by rewrite built_keys.
  - apply d_categories_NoDup.
  - intros k c Hk. by destruct (d_categories_get _ _ _ _ Hk).
Qed.

Lemma d_categories_ids data n c :
  c ∈ Object_values (d_categories (decoded data n)) →
  cat_id c ∈ raw_id <$> assignmentCategories data.
Proof.
  intros Hc. apply d_categories_entry, dict_get_elem in Hc.
  apply (list_elem_of_fmap_2 fst) in Hc. simpl in Hc.
  rewrite filed_keys in Hc.
  apply built_keys_elem in Hc as [Hc|Hc]; [|done].
  by apply elem_of_nil in Hc.
Qed.

(** C1.  When the category ids of the payload are unique, an assignment
    [a] of the fetch whose [categoryID] is the [id] of a category [c] of
    the fetch is in [c.assignments] exactly once after the fetch, and in the
    [assignments] of no other category; every category of the payload is
    then among the categories of the snapshot. *)
Theorem assignment_in_its_category_exactly_once client this w data a c :
  payload_of (client (request this)).2 = Some data →
  allocated (studentData this) w →
  NoDup (raw_id <$> assignmentCategories data) →
  let after := (getStudentInfo client this w).2 in
  let categories :=
    categories_of (member_of after (studentData this) "assignmentCategories") in
  a ∈ instances_of (lookupAll (api after) "assignments") →
  c ∈ categories →
  categoryID a = cat_id c →
  (getStudentInfo client this w).1 = Resolved (studentData this)
  ∧ cat_id <$> categories ≡ₚ raw_id <$> assignmentCategories data
  ∧ occurrences a (cat_assignments c) = 1
  ∧ ∀ c', c' ∈ categories → c' ≠ c → occurrences a (cat_assignments c') = 0.
Proof.
  intros Hp Hal Hnd after categories. subst after categories.
  rewrite (fetched_assignments _ _ _ _ Hp), (fetched_categories _ _ _ _ Hp Hal).
  intros Ha Hc Hid. split_and!.
  - by rewrite (getStudentInfo_payload _ _ _ _ _ Hp).
  - by apply category_ids.
  - rewrite (category_occurrences _ _ _ _ Ha Hc). by rewrite decide_True.
  - intros c' Hc' Hne. rewrite (category_occurrences _ _ _ _ Ha Hc').
    rewrite decide_False; [done|]. intros Hid'. apply Hne.
    apply (categories_same_id data (next_oid w)); congruence.
Qed.

(** C2.  An assignment of the fetch whose [categoryID] is the [id] of no
    category of the fetch is in no category's [assignments], and the fetch
    still resolves. *)
Theorem unmatched_assignment_is_dropped client this w data a :
  payload_of (client (request this)).2 = Some data →
  allocated (studentData this) w →
  let after := (getStudentInfo client this w).2 in
  let categories :=
    categories_of (member_of after (studentData this) "assignmentCategories") in
  a ∈ instances_of (lookupAll (api after) "assignments") →
  categoryID a ∉ cat_id <$> categories →
  (getStudentInfo client this w).1 = Resolved (studentData this)
  ∧ ∀ c, c ∈ categories → occurrences a (cat_assignments c) = 0.
Proof.
  intros Hp Hal after categories. subst after categories.
  rewrite (fetched_assignments _ _ _ _ Hp), (fetched_categories _ _ _ _ Hp Hal).
  intros Ha Hno. split.
  - by rewrite (getStudentInfo_payload _ _ _ _ _ Hp).
  - intros c Hc. rewrite (category_occurrences _ _ _ _ Ha Hc).
    rewrite decide_False; [done|]. intros Hid. apply Hno. rewrite Hid.
    by apply list_elem_of_fmap_2.
Qed.

End Fetched.

(** ** The shape of [schools] (line 65) *)

(** [typeof] never answers ["array"]. *)
Lemma typeof_not_array v : typeof v ≠ "array".
Proof. by destruct v. Qed.

(** So line 65 always wraps [data.schools] in a one-element array. *)
Lemma schools_array_singleton data : schools_array data = [schools data].
Proof.
  unfold schools_array. rewrite decide_False; [done|apply typeof_not_array].
Qed.

Lemma cachedInfo_store_all_other cs a name :
  name ∉ cs.*1.*1 →
  cachedInfo (store_all cs a) !! name = cachedInfo a !! name.
Proof.
  revert a. induction cs as [|c cs IH]; intros a Hn; [done|].
  csimpl in Hn. apply not_elem_of_cons in Hn as [Hne Hn].
  unfold store_all in *. simpl. rewrite IH by done. simpl.
  by rewrite lookup_insert_ne.
Qed.

Section Orchestrator.

Variable categoryID_of : json → Z.

Local Abbreviation getStudentInfo := (getStudentInfo categoryID_of).
Local Abbreviation decoded := (decoded categoryID_of).

Lemma fetch_holds_list client this w data member wires c n :
  payload_of (client (request this)).2 = Some data →
  allocated (studentData this) w →
  (member, VInstances (decode c n wires))
    ∈ assigned data (decoded data (next_oid w)) →
  holds_list (getStudentInfo client this w).2 (studentData this) member wires.
Proof.
  intros Hp Hal Hin. exists (decode c n wires). split.
  - by apply (fetch_member _ _ _ _ _ _ _ Hp Hal).
  - apply wire_decode.
Qed.

(** A member read after the fetch was assigned by it or was there
    before. *)
Lemma fetch_member_inv client this w data member v :
  payload_of (client (request this)).2 = Some data →
  member_of (getStudentInfo client this w).2 (studentData this) member
    = Some v →
  (member, v) ∈ assigned data (decoded data (next_oid w))
  ∨ member_of w (studentData this) member = Some v.
Proof.
  intros Hp Hm.
  destruct (decide (member ∈ (assigned data (decoded data (next_oid w))).*1))
    as [Hin|Hnin].
  - left. apply list_elem_of_fmap in Hin as [[m v'] [Heq Hin]].
    cbn [fst] in Heq. subst member.
    destruct (heap w !! studentData this) as [o|] eqn:Ho.
    + rewrite (fetch_member _ _ _ _ _ _ _ Hp (ex_intro _ o Ho) Hin) in Hm.
      by injection Hm as <-.
    + rewrite (getStudentInfo_payload _ _ _ _ _ Hp) in Hm.
      unfold member_of in Hm. cbn [snd heap] in Hm.
      assert (assign_all (studentData this)
                (assigned data (decoded data (next_oid w))) (heap w)
              !! studentData this = None) as Hnone.
      { apply not_elem_of_dom. rewrite dom_assign_all.
        by apply not_elem_of_dom. }
      by rewrite Hnone in Hm.
  - right. by rewrite <- (fetch_member_other _ _ _ _ _ _ Hp Hnin).
Qed.

(** C3.  When [schools] arrives as a single object, the decoded schools
    are exactly one record, decoded from that object; it is the snapshot's
    [schools] list and the cached [schools] collection. *)
Theorem single_school_object_gives_one_record client this w data fields :
  payload_of (client (request this)).2 = Some data →
  allocated (studentData this) w →
  schools data = JObj fields →
  let after := (getStudentInfo client this w).2 in
  let school := Instance (next_oid w) PowerSchoolSchool (JObj fields) in
  (getStudentInfo client this w).1 = Resolved (studentData this)
  ∧ member_of after (studentData this) "schools" = Some (VInstances [school])
  ∧ lookupAll (api after) "schools" = Some (VInstances [school]).
Proof.
  intros Hp Hal Hs after school. subst after school.
  assert (d_schools (decoded data (next_oid w))
          = [Instance (next_oid w) PowerSchoolSchool (JObj fields)]) as Hd.
  { simpl. rewrite schools_array_singleton, Hs. by rewrite decode_cons. }
  split_and!.
  - by rewrite (getStudentInfo_payload _ _ _ _ _ Hp).
  - rewrite <- Hd. apply (fetch_member _ _ _ _ _ _ _ Hp Hal).
    apply list_elem_of_here.
  - rewrite <- Hd. unfold lookupAll.
    rewrite (fetch_cached _ _ _ _ _ "schools" "schoolNumber"
               (VInstances (d_schools (decoded data (next_oid w)))) Hp);
      [done|].
    apply list_elem_of_further, list_elem_of_here.
Qed.

(** Whatever [schools] is, a list included, line 65 decodes one record
    from the whole value. *)
Lemma schools_always_one_record data n :
  d_schools (decoded data n) = [Instance n PowerSchoolSchool (schools data)].
Proof. simpl. rewrite schools_array_singleton. by rewrite decode_cons. Qed.

(** C5.  In a successful fetch every [storeCacheInfo] call uses the key
    field prescribed for its collection, and the cache records that key
    field for the collection. *)
Theorem store_calls_use_prescribed_keys client this w l :
  (getStudentInfo client this w).1 = Resolved l →
  let after := (getStudentInfo client this w).2 in
  (calls_between w after).*1 = cached_collections
  ∧ (∀ name key, (name, key) ∈ calls_between w after →
       key = prescribed_key name)
  ∧ ∀ name, name ∈ cached_collections →
      keyField <$> cachedInfo (api after) !! name = Some (prescribed_key name).
Proof.
  intros Hres after. subst after.
  destruct (resolved_payload _ _ _ _ _ Hres) as [data Hp].
  rewrite (fetch_calls _ _ _ _ _ Hp). split_and!.
  - reflexivity.
  - intros name key Hin. cbn in Hin.
    repeat (apply elem_of_cons in Hin as [[= -> ->]|Hin]; [reflexivity|]).
    by apply elem_of_nil in Hin.
  - intros name Hin.
    assert (∃ v, (name, prescribed_key name, v)
                   ∈ stored (decoded data (next_oid w))) as [v Hv].
    { unfold cached_collections in Hin.
      repeat (apply elem_of_cons in Hin as [->|Hin];
              [eexists; unfold stored;
               repeat (first [apply list_elem_of_here
                             |apply list_elem_of_further])|]).
      by apply elem_of_nil in Hin. }
    by rewrite (fetch_cached _ _ _ _ _ _ _ _ Hp Hv).
Qed.

(** C6, as the code has it.  A successful fetch makes one
    [storeCacheInfo] call for each of the eleven collections that other
    records look up (teachers, schools, periods, courses, finalGrades,
    terms, reportingTerms, assignmentCategories, assignments,
    assignmentScores, attendanceCodes); each is in the cache afterwards
    with the records passed, and no other collection of the cache is
    touched: notInSessionDays and attendance are not stored. *)
Theorem looked_up_collections_are_stored client this w l :
  (getStudentInfo client this w).1 = Resolved l →
  let after := (getStudentInfo client this w).2 in
  (calls_between w after).*1 = cached_collections
  ∧ (∃ data, payload_of (client (request this)).2 = Some data
       ∧ ∀ name key items,
           (name, key, items) ∈ stored (decoded data (next_oid w)) →
           lookupAll (api after) name = Some items)
  ∧ ∀ name, name ∉ cached_collections →
      lookupAll (api after) name = lookupAll (api w) name.
Proof.
  intros Hres after. subst after.
  destruct (resolved_payload _ _ _ _ _ Hres) as [data Hp]. split_and!.
  - by rewrite (fetch_calls _ _ _ _ _ Hp).
  - exists data. split; [done|]. intros name key items Hin.
    unfold lookupAll. by rewrite (fetch_cached _ _ _ _ _ _ _ _ Hp Hin).
  - intros name Hn. unfold lookupAll.
    rewrite (getStudentInfo_payload _ _ _ _ _ Hp). cbn [snd api].
    by rewrite cachedInfo_store_all_other.
Qed.

(** The guard of line 61: when the transport's result lacks the top-level
    shape (no result, no [result.return], or no
    [result.return.studentDataVOs]) the promise rejects with the [err] the
    transport passed. *)
Theorem rejects_when_payload_shape_is_absent client this w :
  (client (request this)).2 = None
  ∨ (∃ r, (client (request this)).2 = Some r ∧ return_ r = None)
  ∨ (∃ r ret, (client (request this)).2 = Some r ∧ return_ r = Some ret
              ∧ studentDataVOs ret = None) →
  (getStudentInfo client this w).1 = Rejected (client (request this)).1.
Proof.
  intros Hshape. rewrite getStudentInfo_no_payload; [done|].
  destruct Hshape as [->|[(r & -> & Hr)|(r & ret & -> & Hr & Hvo)]];
    simpl; [done| |]; rewrite Hr; [done|]. simpl. by rewrite Hvo.
Qed.

(** A fetch whose promise rejects leaves the world as it was: no
    [storeCacheInfo] call was made, the cache is the same, and every member
    of the snapshot object holds what it held. *)
Theorem failed_fetch_leaves_cache_and_snapshot_untouched client this w e :
  (getStudentInfo client this w).1 = Rejected e →
  let after := (getStudentInfo client this w).2 in
  after = w
  ∧ calls_between w after = []
  ∧ cachedInfo (api after) = cachedInfo (api w)
  ∧ ∀ member, member_of after (studentData this) member
              = member_of w (studentData this) member.
Proof.
  intros Hrej after. subst after.
  rewrite (getStudentInfo_no_payload _ _ _ _ (rejected_no_payload _ _ _ _ _ Hrej)).
  simpl. split_and!; try done.
  unfold calls_between. by rewrite drop_all.
Qed.

End Orchestrator.

(** ** The snapshot object *)

Section Snapshot.

Variable toISOString : string → option string.
Variable categoryID_of : json → Z.

Local Abbreviation getStudentInfo := (getStudentInfo categoryID_of).
Local Abbreviation decoded := (decoded categoryID_of).

(** The constructor creates the [PowerSchoolStudentInfo] object, with no
    member set, and keeps the reference in [this.studentData]. *)
Lemma constructor_allocates s w0 this w1 :
  new_PowerSchoolUser toISOString s w0 = (Some this, w1) →
  studentData this = next_oid w0 ∧ heap w1 !! next_oid w0 = Some ∅.
Proof.
  unfold new_PowerSchoolUser.
  destruct (serverCurrentTime s) as [t|]; simpl.
  - destruct (decide (t = "")); simpl.
    + rewrite bind_run. simpl. intros [= <- <-]. simpl.
      by rewrite lookup_insert_eq.
    + destruct (toISOString t); simpl; [|by intros [=]].
      rewrite bind_run. simpl. intros [= <- <-]. simpl.
      by rewrite lookup_insert_eq.
  - rewrite bind_run. simpl. intros [= <- <-]. simpl.
    by rewrite lookup_insert_eq.
Qed.

(** A fetch never creates or removes a snapshot object. *)
Lemma fetch_dom_heap client this w :
  dom (heap (getStudentInfo client this w).2) = dom (heap w).
Proof.
  destruct (payload_of (client (request this)).2) as [data|] eqn:Hp.
  - rewrite (getStudentInfo_payload _ _ _ _ _ Hp). cbn [snd heap].
    apply dom_assign_all.
  - by rewrite (getStudentInfo_no_payload _ _ _ _ Hp).
Qed.

Lemma fetch_allocated client this w l :
  allocated l w → allocated l (getStudentInfo client this w).2.
Proof.
  unfold allocated. rewrite <- !elem_of_dom. by rewrite fetch_dom_heap.
Qed.

Lemma resolved_studentData client this w l :
  (getStudentInfo client this w).1 = Resolved l → l = studentData this.
Proof.
  intros Hres. destruct (resolved_payload _ _ _ _ _ Hres) as [data Hp].
  rewrite (getStudentInfo_payload _ _ _ _ _ Hp) in Hres. by injection Hres.
Qed.

(** C10.  Every successful [getStudentInfo] of a user resolves with the
    object its constructor created: two successful fetches resolve with the
    same reference, the second creates no new snapshot object, and after it
    the members read through the reference the first fetch returned are
    those the second fetch assigned. *)
Theorem every_fetch_resolves_with_the_same_object
    s w0 this w1 client1 client2 w l1 l2 :
  new_PowerSchoolUser toISOString s w0 = (Some this, w1) →
  allocated (studentData this) w →
  let first := getStudentInfo client1 this w in
  let second := getStudentInfo client2 this first.2 in
  first.1 = Resolved l1 →
  second.1 = Resolved l2 →
  (studentData this = next_oid w0 ∧ heap w1 !! next_oid w0 = Some ∅)
  ∧ l1 = studentData this
  ∧ l2 = l1
  ∧ dom (heap second.2) = dom (heap w)
  ∧ ∃ data2, payload_of (client2 (request this)).2 = Some data2
      ∧ member_of second.2 l1 "yearID" = Some (VJson (yearId data2))
      ∧ ∀ member v,
          (member, v) ∈ assigned data2 (decoded data2 (next_oid first.2)) →
          member_of second.2 l1 member = Some v.
Proof.
  intros Hnew Hal first second H1 H2. subst first second.
  apply resolved_studentData in H1 as Hl1.
  apply resolved_studentData in H2 as Hl2. subst l1 l2.
  destruct (resolved_payload _ _ _ _ _ H2) as [data2 Hp2].
  pose proof (fetch_allocated client1 this w _ Hal) as Hal1.
  destruct (constructor_allocates s w0 this w1 Hnew) as [Hs Hh].
  split_and!; try done.
  - by rewrite !fetch_dom_heap.
  - exists data2. split; [done|]. split.
    + apply (fetch_member _ _ _ _ _ _ _ Hp2 Hal1).
      do 8 apply list_elem_of_further. apply list_elem_of_here.
    + intros member v Hin. by apply (fetch_member _ _ _ _ _ _ _ Hp2 Hal1).
Qed.

End Snapshot.

(** * The small school, run *)

Import Example.

Local Abbreviation fetch := (getStudentInfo categoryID_of).

Lemma example_constructed :
  new_PowerSchoolUser (λ t, Some t) session0 world0 = (Some this, world1).
Proof. reflexivity. Qed.

Lemma example_allocated : allocated (studentData this) world1.
Proof. exists ∅. reflexivity. Defined.

(** C1 at the small school: the essay is once in "Work" and not in
    "Tests". *)
Lemma assignment_in_its_category_exactly_once_witness :
  occurrences essay (cat_assignments work) = 1
  ∧ occurrences essay (cat_assignments tests) = 0.
Proof.
  destruct (assignment_in_its_category_exactly_once
              categoryID_of client_ok this world1 data essay work)
    as (_ & _ & Honce & Hother).
  - reflexivity.
  - exact example_allocated.
  - apply (bool_decide_unpack _). vm_compute. exact I.
  - vm_compute. apply list_elem_of_here.
  - vm_compute. apply list_elem_of_further, list_elem_of_here.
  - reflexivity.
  - split; [exact Honce|]. apply Hother.
    + vm_compute. apply list_elem_of_here.
    + discriminate.
Defined.

(** C2 at the small school: the field trip, whose category 9 does not
    exist, is in neither category and the fetch resolves. *)
Lemma unmatched_assignment_is_dropped_witness :
  (fetch client_ok this world1).1 = Resolved 0
  ∧ occurrences trip (cat_assignments work) = 0
  ∧ occurrences trip (cat_assignments tests) = 0.
Proof.
  destruct (unmatched_assignment_is_dropped
              categoryID_of client_ok this world1 data trip)
    as (Hres & Hnone).
  - reflexivity.
  - exact example_allocated.
  - vm_compute. do 2 apply list_elem_of_further. apply list_elem_of_here.
  - apply (bool_decide_unpack _). vm_compute. exact I.
  - split; [exact Hres|]. split; apply Hnone; vm_compute.
    + apply list_elem_of_further, list_elem_of_here.
    + apply list_elem_of_here.
Defined.

(** C3 at the small school: the one school object gives one record. *)
Lemma single_school_object_gives_one_record_witness :
  member_of (fetch client_ok this world1).2 0 "schools"
  = Some (VInstances [Instance 1 PowerSchoolSchool high_school])
  ∧ lookupAll (api (fetch client_ok this world1).2) "schools"
    = Some (VInstances [Instance 1 PowerSchoolSchool high_school]).
Proof.
  destruct (single_school_object_gives_one_record
              categoryID_of client_ok this world1 data
              [("schoolNumber", JNum 100)])
    as (_ & Hsnapshot & Hcache).
  - reflexivity.
  - exact example_allocated.
  - reflexivity.
  - split; [exact Hsnapshot|exact Hcache].
Defined.

(** C4 at a payload whose [schools] is a list of two schools: line 65
    decodes one record, from the list itself, where the claim expects
    two records, one per school. *)
Theorem school_list_is_decoded_as_one_record :
  schools data_two_schools = JArr [high_school; middle_school]
  ∧ (fetch client_two_schools this world1).1 = Resolved 0
  ∧ member_of (fetch client_two_schools this world1).2 0 "schools"
    = Some (VInstances
              [Instance 1 PowerSchoolSchool
                 (JArr [high_school; middle_school])]).
Proof. split_and!; reflexivity. Qed.

(** C5 at the small school. *)
Lemma store_calls_use_prescribed_keys_witness :
  (calls_between world1 (fetch client_ok this world1).2).*1
  = cached_collections
  ∧ ∀ name key, (name, key) ∈ calls_between world1 (fetch client_ok this world1).2 →
      key = prescribed_key name.
Proof.
  destruct (store_calls_use_prescribed_keys
              categoryID_of client_ok this world1 0)
    as (Hnames & Hkeys & _).
  - reflexivity.
  - split; [exact Hnames|exact Hkeys].
Defined.

(** C6 fails at the small school: no call stores notInSessionDays. *)
Lemma not_every_collection_is_stored :
  (fetch client_ok this world1).1 = Resolved 0
  ∧ ¬ every_collection_stored world1 (fetch client_ok this world1).2.
Proof.
  split; [reflexivity|]. intros Hall.
  specialize (Hall "notInSessionDays").
  revert Hall. apply (bool_decide_unpack _). vm_compute. exact I.
Qed.

(** C6, as the code has it, at the small school. *)
Lemma looked_up_collections_are_stored_witness :
  (calls_between world1 (fetch client_ok this world1).2).*1
  = cached_collections
  ∧ lookupAll (api (fetch client_ok this world1).2) "notInSessionDays" = None
  ∧ lookupAll (api (fetch client_ok this world1).2) "attendance" = None.
Proof.
  destruct (looked_up_collections_are_stored
              categoryID_of client_ok this world1 0)
    as (Hnames & _ & Hother).
  - reflexivity.
  - split; [exact Hnames|].
    split; (rewrite Hother; [reflexivity|]);
      apply (bool_decide_unpack _); vm_compute; exact I.
Defined.


(** The guard of line 61 on a transport error without a result and on a
    reply without [return]. *)
Lemma rejects_when_payload_shape_is_absent_witness :
  (fetch client_error this world1).1 = Rejected (Some "ECONNRESET")
  ∧ (fetch client_empty this world1).1 = Rejected None.
Proof.
  split.
  - apply (rejects_when_payload_shape_is_absent
             categoryID_of client_error this world1).
    left. reflexivity.
  - apply (rejects_when_payload_shape_is_absent
             categoryID_of client_empty this world1).
    right. left. eexists. split; reflexivity.
Defined.

(** After a first successful fetch, a transport error without a result
    leaves the cache and the snapshot of that fetch as they were. *)
Lemma failed_fetch_leaves_cache_and_snapshot_untouched_witness :
  let fetched := (fetch client_ok this world1).2 in
  (fetch client_error this fetched).2 = fetched
  ∧ calls_between fetched (fetch client_error this fetched).2 = [].
Proof.
  intros fetched.
  destruct (failed_fetch_leaves_cache_and_snapshot_untouched
              categoryID_of client_error this fetched (Some "ECONNRESET"))
    as (Hsame & Hcalls & _).
  - reflexivity.
  - split; [exact Hsame|exact Hcalls].
Defined.

(** C9 fails at the small school: no member of the snapshot is a list
    decoded from the three assignments of the payload. *)
Lemma snapshot_has_no_assignments_list :
  (fetch client_ok this world1).1 = Resolved 0
  ∧ ¬ owns_every_collection (fetch client_ok this world1).2 0 data.
Proof.
  split; [reflexivity|]. intros Hall. unfold owns_every_collection in Hall.
  do 3 apply Forall_cons_1 in Hall as [_ Hall].
  apply Forall_cons_1 in Hall as [(member & recs & Hm & Hw) _].
  apply (fetch_member_inv categoryID_of client_ok this world1 data
           member (VInstances recs) eq_refl) in Hm as [Hin|Hold].
  - vm_compute in Hin.
    repeat (apply elem_of_cons in Hin as [Heq|Hin];
            [try discriminate Heq; injection Heq as -> ->;
             vm_compute in Hw; discriminate Hw|]).
    by apply elem_of_nil in Hin.
  - unfold member_of, world1 in Hold. cbn [heap studentData this] in Hold.
    rewrite lookup_singleton_eq in Hold. cbn [mbind option_bind] in Hold.
    by rewrite lookup_empty in Hold.
Qed.

(** C10 at the small school: the user of [example_constructed] fetches
    twice; both promises resolve with object 0, and the year id read
    through it changes from 28 to 29. *)
Lemma every_fetch_resolves_with_the_same_object_witness :
  let first := fetch client_ok this world1 in
  let second := fetch client_two_schools this first.2 in
  first.1 = Resolved 0
  ∧ second.1 = Resolved 0
  ∧ member_of first.2 0 "yearID" = Some (VJson (JNum 28))
  ∧ member_of second.2 0 "yearID" = Some (VJson (JNum 29))
  ∧ dom (heap second.2) = dom (heap world1).
Proof.
  intros first second.
  destruct (every_fetch_resolves_with_the_same_object
              (λ t, Some t) categoryID_of session0 world0 this world1
              client_ok client_two_schools world1 0 0)
    as (_ & _ & _ & Hdom & d2 & Hp2 & Hyear & _).
  - reflexivity.
  - exact example_allocated.
  - reflexivity.
  - reflexivity.
  - injection Hp2 as <-. split_and!.
    + reflexivity.
    + reflexivity.
    + reflexivity.
    + exact Hyear.
    + exact Hdom.
Defined.

(** * Further properties of [PowerSchoolUser] *)

(** ** The constructor (lines 22-37) *)

Section Constructor.

Variable toISOString : string → option string.

Lemma constructor_world s w0 this w1 :
  new_PowerSchoolUser toISOString s w0 = (Some this, w1) →
  studentData this = next_oid w0
  ∧ w1 = {| next_oid := S (next_oid w0);
            heap := <[next_oid w0 := ∅]> (heap w0);
            api := api w0 |}.
Proof.
  unfold new_PowerSchoolUser.
  destruct (serverCurrentTime s) as [t|]; simpl.
  - destruct (decide (t = "")); simpl.
    + rewrite bind_run. simpl. by intros [= <- <-].
    + destruct (toISOString t); simpl; [|by intros [=]].
      rewrite bind_run. simpl. by intros [= <- <-].
  - rewrite bind_run. simpl. by intros [= <- <-].
Qed.

(** X1.  The constructor throws, and creates no user, exactly when the
    session carries a non-empty [serverCurrentTime] that is not a valid
    date; it then leaves the world as it was (no snapshot object is
    created). *)
Theorem constructor_throws_exactly_on_an_invalid_time s w :
  ((new_PowerSchoolUser toISOString s w).1 = None
   ↔ ∃ t, serverCurrentTime s = Some t ∧ t ≠ "" ∧ toISOString t = None)
  ∧ ((new_PowerSchoolUser toISOString s w).1 = None →
     (new_PowerSchoolUser toISOString s w).2 = w).
Proof.
  unfold new_PowerSchoolUser.
  destruct (serverCurrentTime s) as [t|] eqn:Ht; simpl.
  - destruct (decide (t = "")) as [Hempty|Hne]; simpl.
    + rewrite ?bind_run; simpl. split; [split|]; try done.
      intros (t' & [= <-] & Hne' & _). done.
    + destruct (toISOString t) as [iso|] eqn:Hiso; simpl.
      * rewrite ?bind_run; simpl. split; [split|]; try done.
        intros (t' & [= <-] & _ & Hnone). congruence.
      * split; [split|]; try done. intros _. by exists t.
  - rewrite ?bind_run; simpl. split; [split|]; try done.
    by intros (t' & [=] & _).
Qed.

(** X2.  The request that a constructed user sends carries the session's
    user id, user type, service ticket, API version and student ids, asks
    for [qil.includes = "1"], and carries the server time in ISO form: the
    conversion of the session's time when there is a non-empty one. *)
Theorem request_carries_the_session s w0 this w1 :
  new_PowerSchoolUser toISOString s w0 = (Some this, w1) →
  vo_userId (userSessionVO (request this)) = userId s
  ∧ vo_userType (userSessionVO (request this)) = s_userType s
  ∧ vo_serviceTicket (userSessionVO (request this)) = serviceTicket s
  ∧ apiVersion (vo_serverInfo (userSessionVO (request this)))
    = apiVersion (serverInfo s)
  ∧ req_studentIDs (request this) = studentIDs s
  ∧ includes (qil (request this)) = "1"
  ∧ (∀ t, serverCurrentTime s = Some t → t ≠ "" →
       vo_serverCurrentTime (userSessionVO (request this)) = toISOString t
       ∧ is_Some (toISOString t))
  ∧ (∀ t, serverCurrentTime s = Some t → t = "" →
       vo_serverCurrentTime (userSessionVO (request this)) = Some "")
  ∧ (serverCurrentTime s = None →
       vo_serverCurrentTime (userSessionVO (request this)) = None).
Proof.
  unfold new_PowerSchoolUser.
  destruct (serverCurrentTime s) as [t|] eqn:Ht; simpl.
  - destruct (decide (t = "")) as [Hempty|Hne]; simpl.
    + rewrite bind_run. simpl. intros [= <- <-]. simpl.
      split_and!; try done; intros t' [= <-]; [done|]. by subst.
    + destruct (toISOString t) as [iso|] eqn:Hiso; simpl; [|by intros [=]].
      rewrite bind_run. simpl. intros [= <- <-]. simpl.
      split_and!; try done; intros t' [= <-]; [|done].
      intros _. rewrite Hiso. by split.
  - rewrite bind_run. simpl. intros [= <- <-]. simpl.
    split_and!; done.
Qed.

End Constructor.

(** ** More on category aggregation (lines 77-79) *)

Global Instance key_le_total {A} : Total (@key_le A).
Proof. intros p q. unfold key_le. lia. Qed.

Global Instance key_le_trans {A} : Transitive (@key_le A).
Proof. intros p q r. unfold key_le. lia. Qed.

Lemma entry_ids (l : list (Z * category)) :
  (∀ p, p ∈ l → cat_id p.2 = p.1) → cat_id <$> l.*2 = l.*1.
Proof.
  intros Hl. rewrite <- list_fmap_compose. apply list_fmap_ext.
  intros i p Hi. simpl. apply Hl. by apply list_elem_of_lookup_2 in Hi.
Qed.

Lemma filter_none {A} (P : A → Prop) `{!∀ x, Decision (P x)} (l : list A) :
  (∀ x, x ∈ l → ¬ P x) → filter P l = [].
Proof.
  induction l as [|x l IH]; intros Hl; [done|].
  rewrite filter_cons_False by (apply Hl, list_elem_of_here).
  apply IH. intros y Hy. by apply Hl, list_elem_of_further.
Qed.

(** When every key is an array index, [Object.values] lists the values by
    ascending key. *)
Lemma Object_values_sorted (d : dict category) :
  Forall is_array_index d.*1 →
  (∀ p, p ∈ d → cat_id p.2 = p.1) →
  StronglySorted Z.le (cat_id <$> Object_values d).
Proof.
  intros Hidx Hid. unfold Object_values.
  assert (filter (λ p : Z * category, ¬ is_array_index p.1) d = []) as ->.
  { apply filter_none. intros p Hp Hn. apply Hn.
    rewrite Forall_forall in Hidx. apply Hidx. by apply list_elem_of_fmap_2. }
  rewrite app_nil_r, entry_ids.
  - apply (StronglySorted_fmap fst key_le); [by intros p q|].
    apply StronglySorted_merge_sort; apply _.
  - intros p Hp. apply Hid. rewrite merge_sort_Permutation in Hp.
    by apply list_elem_of_filter in Hp as [_ Hp].
Qed.

(** The category line 78 leaves under key [k] was built from the last
    element of the payload with that id. *)
Lemma built_get_last raw d n k c :
  dict_get k (built raw d n) = Some c →
  (dict_get k d = Some c ∧ k ∉ raw_id <$> raw)
  ∨ ∃ before data after,
      raw = before ++ data :: after
      ∧ raw_id data = k
      ∧ c = Category (n + length before) k (raw_fields data) []
      ∧ k ∉ raw_id <$> after.
Proof.
  revert d n. induction raw as [|data rest IH]; intros d n Hget.
  - left. split; [done|apply not_elem_of_nil].
  - csimpl in Hget. apply IH in Hget
      as [[Hget Hnot]|(before & data' & after & -> & Hk & -> & Hafter)].
    + rewrite dict_get_set in Hget.
      destruct (decide (k = raw_id data)) as [->|Hne].
      * right. exists [], data, rest. injection Hget as <-.
        split_and!; try done. simpl. by rewrite Nat.add_0_r.
      * left. split; [done|]. rewrite fmap_cons, not_elem_of_cons. done.
    + right. exists (data :: before), data', after.
      split_and!; try done. simpl. do 2 f_equal. lia.
Qed.

Lemma wire_filter_decode (P : json → Prop) `{!∀ d, Decision (P d)} c n
    (l : list json) :
  wire <$> filter (λ a, P (wire a)) (decode c n l) = filter P l.
Proof.
  revert n. induction l as [|d l IH]; intros n; [done|].
  rewrite decode_cons, !filter_cons. simpl.
  destruct (decide (P d)); csimpl; by rewrite IH.
Qed.

(** Summing, over categories with distinct ids, a count that is 1 on the
    category with id [k] and 0 elsewhere. *)
Lemma sum_over_categories (f : category → nat) k (cs : list category) :
  NoDup (cat_id <$> cs) →
  (∀ c, c ∈ cs → f c = if decide (k = cat_id c) then 1 else 0) →
  sum_list_with f cs = if decide (k ∈ cat_id <$> cs) then 1 else 0.
Proof.
  induction cs as [|c cs IH]; intros Hnd Hf; [done|].
  rewrite fmap_cons in Hnd. apply NoDup_cons in Hnd as [Hc Hnd].
  csimpl. rewrite (Hf c) by apply list_elem_of_here.
  rewrite IH; [|done|intros c' Hc'; apply Hf; by apply list_elem_of_further].
  destruct (decide (k = cat_id c)) as [->|Hne].
  - rewrite decide_False by done.
    rewrite decide_True; [done|apply list_elem_of_here].
  - destruct (decide (k ∈ cat_id <$> cs)) as [Hin|Hnin].
    + rewrite decide_True; [done|by apply list_elem_of_further].
    + rewrite decide_False; [done|]. rewrite not_elem_of_cons. done.
Qed.

Section Aggregation.

Variable categoryID_of : json → Z.

Local Abbreviation categoryID := (categoryID categoryID_of).
Local Abbreviation getStudentInfo := (getStudentInfo categoryID_of).
Local Abbreviation decoded := (decoded categoryID_of).

Lemma d_categories_ids_NoDup data n :
  NoDup (cat_id <$> Object_values (d_categories (decoded data n))).
Proof.
  rewrite Object_values_Permutation, keyed_ids.
  - apply d_categories_NoDup.
  - apply d_categories_NoDup.
  - intros k c Hk. by destruct (d_categories_get _ _ _ _ _ Hk).
Qed.

(** X3.  After a successful fetch the [assignments] of every category of
    the snapshot are exactly the fetched assignments that carry the
    category's id, in the order of the payload; no uniqueness of ids is
    needed. *)
Theorem category_holds_its_assignments_in_payload_order
    client this w data c :
  payload_of (client (request this)).2 = Some data →
  allocated (studentData this) w →
  let after := (getStudentInfo client this w).2 in
  c ∈ categories_of
        (member_of after (studentData this) "assignmentCategories") →
  cat_assignments c
  = filter (λ a, categoryID a = cat_id c)
           (instances_of (lookupAll (api after) "assignments"))
  ∧ wire <$> cat_assignments c
    = filter (λ d, categoryID_of d = cat_id c) (assignments data).
Proof.
  intros Hp Hal after. subst after.
  rewrite (fetched_assignments _ _ _ _ _ Hp),
          (fetched_categories _ _ _ _ _ Hp Hal).
  intros Hc. apply d_categories_entry, d_categories_get in Hc as [_ Hc].
  split; [done|]. rewrite Hc. simpl.
  exact (wire_filter_decode (λ d, categoryID_of d = cat_id c) _ _ _).
Qed.

(** X4.  The ids of the categories of the snapshot are always pairwise
    distinct; when several elements of the payload share an id, the
    category kept for it is the one decoded from the last of them. *)
Theorem last_category_with_an_id_wins client this w data c :
  payload_of (client (request this)).2 = Some data →
  allocated (studentData this) w →
  let categories :=
    categories_of (member_of (getStudentInfo client this w).2
                     (studentData this) "assignmentCategories") in
  c ∈ categories →
  NoDup (cat_id <$> categories)
  ∧ ∃ before element after,
      assignmentCategories data = before ++ element :: after
      ∧ raw_id element = cat_id c
      ∧ cat_wire c = raw_fields element
      ∧ cat_id c ∉ raw_id <$> after.
Proof.
  intros Hp Hal categories. subst categories.
  rewrite (fetched_categories _ _ _ _ _ Hp Hal). intros Hc.
  split; [apply d_categories_ids_NoDup|].
  apply d_categories_entry in Hc. simpl in Hc.
  unfold filed in Hc. rewrite dict_get_pushes in Hc.
  apply fmap_Some in Hc as (c0 & Hc0 & ->). simpl.
  apply built_get_last in Hc0
    as [[Hnil _]|(before & element & after & Hraw & Hk & -> & Hafter)];
    [done|].
  exists before, element, after. simpl. by split_and!.
Qed.

(** X5.  When the category ids of the payload are array indices
    (integers from 0 to 2^32 - 2), the categories of the snapshot come in
    ascending order of id, whatever their order in the payload. *)
Theorem categories_come_sorted_by_id client this w data :
  payload_of (client (request this)).2 = Some data →
  allocated (studentData this) w →
  Forall is_array_index (raw_id <$> assignmentCategories data) →
  StronglySorted Z.le
    (cat_id <$> categories_of
                  (member_of (getStudentInfo client this w).2
                     (studentData this) "assignmentCategories")).
Proof.
  intros Hp Hal Hidx. rewrite (fetched_categories _ _ _ _ _ Hp Hal).
  apply Object_values_sorted.
  - apply Forall_forall. intros k Hk. simpl in Hk.
    rewrite filed_keys in Hk.
    apply built_keys_elem in Hk as [Hk|Hk]; [by apply elem_of_nil in Hk|].
    rewrite Forall_forall in Hidx. by apply Hidx.
  - intros [k c] Hin. simpl.
    apply elem_dict_get in Hin; [|apply d_categories_NoDup].
    by destruct (d_categories_get _ _ _ _ _ Hin).
Qed.

(** X6.  A fetched assignment is filed in at most one category: counted
    over all categories of the snapshot it occurs once when its
    [categoryID] is the id of a category, and not at all otherwise. *)
Theorem assignment_is_filed_at_most_once client this w data a :
  payload_of (client (request this)).2 = Some data →
  allocated (studentData this) w →
  let after := (getStudentInfo client this w).2 in
  let categories :=
    categories_of (member_of after (studentData this) "assignmentCategories") in
  a ∈ instances_of (lookupAll (api after) "assignments") →
  sum_list_with (λ c, occurrences a (cat_assignments c)) categories
  = if decide (categoryID a ∈ cat_id <$> categories) then 1 else 0.
Proof.
  intros Hp Hal after categories. subst after categories.
  rewrite (fetched_assignments _ _ _ _ _ Hp),
          (fetched_categories _ _ _ _ _ Hp Hal).
  intros Ha. apply sum_over_categories.
  - apply d_categories_ids_NoDup.
  - intros c Hc. by apply (category_occurrences _ data (next_oid w)).
Qed.

End Aggregation.

(** ** More on the fetch (lines 60-109) *)

Section Fetch_more.

Variable toISOString : string → option string.
Variable categoryID_of : json → Z.

Local Abbreviation getStudentInfo := (getStudentInfo categoryID_of).
Local Abbreviation decoded := (decoded categoryID_of).

(** A fetch assigns members of [this.studentData] only. *)
Lemma fetch_frame client this w l :
  l ≠ studentData this →
  heap (getStudentInfo client this w).2 !! l = heap w !! l.
Proof.
  intros Hne.
  destruct (payload_of (client (request this)).2) as [data|] eqn:Hp.
  - rewrite (getStudentInfo_payload _ _ _ _ _ Hp). cbn [snd heap].
    by apply lookup_assign_all_ne.
  - by rewrite (getStudentInfo_no_payload _ _ _ _ Hp).
Qed.

(** X7.  When [schools] arrives as a list, of any length, the snapshot's
    [schools] and the cached [schools] collection hold exactly one record,
    decoded from the list as a whole. *)
Theorem school_list_of_any_length_gives_one_record client this w data l :
  payload_of (client (request this)).2 = Some data →
  allocated (studentData this) w →
  schools data = JArr l →
  let after := (getStudentInfo client this w).2 in
  let school := Instance (next_oid w) PowerSchoolSchool (JArr l) in
  member_of after (studentData this) "schools" = Some (VInstances [school])
  ∧ lookupAll (api after) "schools" = Some (VInstances [school]).
Proof.
  intros Hp Hal Hs after school. subst after school.
  rewrite <- Hs, <- (schools_always_one_record categoryID_of). split.
  - apply (fetch_member _ _ _ _ _ _ _ Hp Hal). apply list_elem_of_here.
  - unfold lookupAll.
    rewrite (fetch_cached _ _ _ _ _ "schools" "schoolNumber"
               (VInstances (d_schools (decoded data (next_oid w)))) Hp);
      [done|].
    apply list_elem_of_further, list_elem_of_here.
Qed.

(** X8.  Two users created one after the other have different snapshot
    objects, and a fetch by the first leaves the snapshot object of the
    second as it was. *)
Theorem users_do_not_share_a_snapshot s1 s2 w0 u1 w1 u2 w2 client :
  new_PowerSchoolUser toISOString s1 w0 = (Some u1, w1) →
  new_PowerSchoolUser toISOString s2 w1 = (Some u2, w2) →
  studentData u1 ≠ studentData u2
  ∧ allocated (studentData u1) w2
  ∧ allocated (studentData u2) w2
  ∧ heap (getStudentInfo client u1 w2).2 !! studentData u2
    = heap w2 !! studentData u2.
Proof.
  intros H1 H2.
  apply constructor_world in H1 as [Hu1 ->].
  apply constructor_world in H2 as [Hu2 ->]. simpl in *.
  assert (studentData u1 ≠ studentData u2) as Hne by lia.
  split_and!; [done| | |].
  - unfold allocated. simpl. rewrite Hu1.
    rewrite lookup_insert_ne by lia. rewrite lookup_insert_eq. by eexists.
  - unfold allocated. simpl. rewrite Hu2.
    rewrite lookup_insert_eq. by eexists.
  - by apply fetch_frame.
Qed.

(** X10.  After a successful fetch the snapshot and the cache hold the
    very same records for the nine collections that are both stored and
    assigned. *)
Theorem snapshot_and_cache_hold_the_same_records client this w l name :
  (getStudentInfo client this w).1 = Resolved l →
  allocated (studentData this) w →
  name ∈ [ "schools"; "teachers"; "periods"; "courses"; "finalGrades";
           "terms"; "reportingTerms"; "assignmentCategories";
           "attendanceCodes" ] →
  let after := (getStudentInfo client this w).2 in
  is_Some (member_of after l name)
  ∧ lookupAll (api after) name = member_of after l name.
Proof.
  intros Hres Hal Hname after. subst after.
  destruct (resolved_payload _ _ _ _ _ Hres) as [data Hp].
  rewrite (getStudentInfo_payload _ _ _ _ _ Hp) in Hres.
  injection Hres as <-.
  assert (∃ key v,
            (name, key, v) ∈ stored (decoded data (next_oid w))
            ∧ (name, v) ∈ assigned data (decoded data (next_oid w)))
    as (key & v & Hstored & Hassigned).
  { repeat (apply elem_of_cons in Hname as [->|Hname];
            [do 2 eexists; split; unfold stored, assigned;
             repeat (first [apply list_elem_of_here
                           |apply list_elem_of_further])|]).
    by apply elem_of_nil in Hname. }
  unfold lookupAll.
  rewrite (fetch_cached _ _ _ _ _ _ _ _ Hp Hstored).
  rewrite (fetch_member _ _ _ _ _ _ _ Hp Hal Hassigned). by split.
Qed.

End Fetch_more.

(** * The further properties, run *)

Import Edge.

(** X2 for the session with a time stamp: the request carries the ISO
    form. *)
Lemma request_carries_the_session_witness :
  vo_userId (userSessionVO (request user_with_time)) = 41%Z
  ∧ vo_serverCurrentTime (userSessionVO (request user_with_time))
    = Some "2020-11-03T10:00:00.000Z".
Proof.
  destruct (request_carries_the_session Edge.toISOString session_with_time
              world0 user_with_time world1)
    as (Hid & _ & _ & _ & _ & _ & Htime & _).
  - reflexivity.
  - split; [exact Hid|].
    destruct (Htime "Nov 3, 2020 10:00:00 AM") as [Hiso _];
      [reflexivity|discriminate|exact Hiso].
Defined.

(** X3 at the small school: "Work" holds the essay and the quiz, in that
    order. *)
Lemma category_holds_its_assignments_in_payload_order_witness :
  wire <$> cat_assignments work = [homework; quiz].
Proof.
  destruct (category_holds_its_assignments_in_payload_order
              categoryID_of client_ok this world1 data work)
    as (_ & Hwires).
  - reflexivity.
  - exact example_allocated.
  - vm_compute. apply list_elem_of_further, list_elem_of_here.
  - exact Hwires.
Defined.

(** X4 when the payload names id 7 twice: the snapshot keeps the later
    category, "Homework". *)
Lemma last_category_with_an_id_wins_witness :
  ∃ before element after,
    assignmentCategories data_duplicate_id = before ++ element :: after
    ∧ raw_id element = 7%Z
    ∧ JObj [("name", JStr "Homework")] = raw_fields element
    ∧ 7%Z ∉ raw_id <$> after.
Proof.
  destruct (last_category_with_an_id_wins
              categoryID_of client_duplicate_id this world1
              data_duplicate_id homework_category)
    as (_ & Hlast).
  - reflexivity.
  - exact example_allocated.
  - vm_compute. apply list_elem_of_further, list_elem_of_here.
  - exact Hlast.
Defined.

(** X5 at the small school: the payload lists ids 7 and 3, the snapshot
    has them in ascending order. *)
Lemma categories_come_sorted_by_id_witness :
  StronglySorted Z.le
    (cat_id <$> categories_of
                  (member_of (fetch client_ok this world1).2 0
                     "assignmentCategories")).
Proof.
  apply (categories_come_sorted_by_id
           categoryID_of client_ok this world1 data).
  - reflexivity.
  - exact example_allocated.
  - apply (bool_decide_unpack _). vm_compute. exact I.
Defined.

(** X6 at the small school: the essay is filed once in all, the field
    trip not at all. *)
Lemma assignment_is_filed_at_most_once_witness :
  sum_list_with (λ c, occurrences essay (cat_assignments c))
    (categories_of (member_of (fetch client_ok this world1).2 0
                      "assignmentCategories"))
  = 1.
Proof.
  assert (essay ∈ instances_of
            (lookupAll (api (fetch client_ok this world1).2) "assignments"))
    as Hin.
  { vm_compute. apply list_elem_of_here. }
  pose proof (assignment_is_filed_at_most_once
                categoryID_of client_ok this world1 data essay
                eq_refl example_allocated Hin) as Hsum.
  cbv zeta in Hsum. etransitivity; [exact Hsum|]. vm_compute. reflexivity.
Defined.

(** X7 for the list of two schools. *)
Lemma school_list_of_any_length_gives_one_record_witness :
  member_of (fetch client_two_schools this world1).2 0 "schools"
  = Some (VInstances
            [Instance 1 PowerSchoolSchool
               (JArr [high_school; middle_school])]).
Proof.
  destruct (school_list_of_any_length_gives_one_record
              categoryID_of client_two_schools this world1
              data_two_schools [high_school; middle_school])
    as (Hsnapshot & _).
  - reflexivity.
  - exact example_allocated.
  - reflexivity.
  - exact Hsnapshot.
Defined.

(** X8 for two users created from the same session. *)
Lemma users_do_not_share_a_snapshot_witness :
  studentData this ≠ studentData other
  ∧ heap (fetch client_ok this world2).2 !! studentData other
    = heap world2 !! studentData other.
Proof.
  destruct (users_do_not_share_a_snapshot
              (λ t, Some t) categoryID_of session0 session0
              world0 this world1 other world2 client_ok)
    as (Hne & _ & _ & Hframe).
  - reflexivity.
  - reflexivity.
  - split; [exact Hne|exact Hframe].
Defined.

(** X10 at the small school, for the teachers. *)
Lemma snapshot_and_cache_hold_the_same_records_witness :
  lookupAll (api (fetch client_ok this world1).2) "teachers"
  = member_of (fetch client_ok this world1).2 0 "teachers".
Proof.
  destruct (snapshot_and_cache_hold_the_same_records
              categoryID_of client_ok this world1 0 "teachers")
    as (_ & Hsame).
  - reflexivity.
  - exact example_allocated.
  - apply list_elem_of_further, list_elem_of_here.
  - exact Hsame.
Defined.

(** * The snapshot's members and a failing transport *)

Section Members.

Variable categoryID_of : json → Z.

Local Abbreviation categoryID := (categoryID categoryID_of).
Local Abbreviation getStudentInfo := (getStudentInfo categoryID_of).
Local Abbreviation decoded := (decoded categoryID_of).

(** Every id of the payload has its category in the snapshot. *)
Lemma d_categories_ids_iff data n id :
  id ∈ cat_id <$> Object_values (d_categories (decoded data n))
  ↔ id ∈ raw_id <$> assignmentCategories data.
Proof.
  split.
  - intros Hin. apply list_elem_of_fmap in Hin as [c [-> Hc]].
    by apply (d_categories_ids categoryID_of data n).
  - intros Hin.
    assert (id ∈ (d_categories (decoded data n)).*1) as Hkey.
    { simpl. rewrite filed_keys. apply built_keys_elem. by right. }
    apply list_elem_of_fmap in Hkey as [[k c] [-> Hkc]]. simpl.
    assert (c ∈ Object_values (d_categories (decoded data n))) as Hc.
    { apply elem_of_Object_values. by exists k. }
    apply elem_dict_get in Hkc; [|apply d_categories_NoDup].
    destruct (d_categories_get categoryID_of _ _ _ _ Hkc) as [<- _].
    by apply list_elem_of_fmap_2.
Qed.

(** C9, as the code has it.  The snapshot of a successful fetch holds a
    list for each collection of the payload except assignments and
    assignmentScores: schools (the one record, when [schools] arrives as a
    single object), teachers, periods, courses, terms, reportingTerms,
    notInSessionDays, attendanceRecords, attendanceCodes, finalGrades and
    the categories, one for each category id of the payload; it holds the
    Student record and the year id; the fetch assigns no other member.
    The assignments and the assignmentScores are held by the cache, and
    each category of the snapshot holds the fetched assignments that carry
    its id. *)
Theorem snapshot_members client this w l :
  (getStudentInfo client this w).1 = Resolved l →
  allocated (studentData this) w →
  let after := (getStudentInfo client this w).2 in
  ∃ data, payload_of (client (request this)).2 = Some data
  ∧ l = studentData this
  ∧ (∀ fields, schools data = JObj fields →
       holds_list after l "schools" [schools data])
  ∧ holds_list after l "teachers" (teachers data)
  ∧ holds_list after l "periods" (periods data)
  ∧ holds_list after l "courses" (sections data)
  ∧ holds_list after l "terms" (terms data)
  ∧ holds_list after l "reportingTerms" (reportingTerms data)
  ∧ holds_list after l "notInSessionDays" (notInSessionDays data)
  ∧ holds_list after l "attendanceRecords" (attendance data)
  ∧ holds_list after l "attendanceCodes" (attendanceCodes data)
  ∧ holds_list after l "finalGrades" (finalGrades data)
  ∧ (∃ s, member_of after l "student" = Some (VInstance s)
       ∧ wire s = student data)
  ∧ member_of after l "yearID" = Some (VJson (yearId data))
  ∧ (∃ fetched scores categories,
       lookupAll (api after) "assignments" = Some (VInstances fetched)
       ∧ wire <$> fetched = assignments data
       ∧ lookupAll (api after) "assignmentScores" = Some (VInstances scores)
       ∧ wire <$> scores = assignmentScores data
       ∧ member_of after l "assignmentCategories"
         = Some (VCategories categories)
       ∧ NoDup (cat_id <$> categories)
       ∧ (∀ id, id ∈ cat_id <$> categories
                ↔ id ∈ raw_id <$> assignmentCategories data)
       ∧ ∀ c, c ∈ categories →
           cat_assignments c
           = filter (λ a, categoryID a = cat_id c) fetched)
  ∧ ∀ member,
      member ∉ [ "schools"; "teachers"; "periods"; "courses"; "terms";
                 "reportingTerms"; "notInSessionDays"; "student"; "yearID";
                 "assignmentCategories"; "attendanceRecords";
                 "attendanceCodes"; "finalGrades" ] →
      member_of after l member = member_of w l member.
Proof.
  intros Hres Hal after. subst after.
  destruct (resolved_payload _ _ _ _ _ Hres) as [data Hp].
  assert (l = studentData this) as ->.
  { rewrite (getStudentInfo_payload _ _ _ _ _ Hp) in Hres.
    by injection Hres. }
  exists data. split; [done|]. split; [done|].
  pose proof (fetch_holds_list categoryID_of client this w data) as Hlist.
  pose proof (fetch_member categoryID_of client this w data) as Hmem.
  pose proof (fetch_cached categoryID_of client this w data) as Hcache.
  split_and!.
  - intros fields _. rewrite <- schools_array_singleton.
    eapply (Hlist _ _ _ _ Hp Hal). apply list_elem_of_here.
  - eapply (Hlist _ _ _ _ Hp Hal).
    do 1 apply list_elem_of_further. apply list_elem_of_here.
  - eapply (Hlist _ _ _ _ Hp Hal).
    do 2 apply list_elem_of_further. apply list_elem_of_here.
  - eapply (Hlist _ _ _ _ Hp Hal).
    do 3 apply list_elem_of_further. apply list_elem_of_here.
  - eapply (Hlist _ _ _ _ Hp Hal).
    do 4 apply list_elem_of_further. apply list_elem_of_here.
  - eapply (Hlist _ _ _ _ Hp Hal).
    do 5 apply list_elem_of_further. apply list_elem_of_here.
  - eapply (Hlist _ _ _ _ Hp Hal).
    do 6 apply list_elem_of_further. apply list_elem_of_here.
  - eapply (Hlist _ _ _ _ Hp Hal).
    do 10 apply list_elem_of_further. apply list_elem_of_here.
  - eapply (Hlist _ _ _ _ Hp Hal).
    do 11 apply list_elem_of_further. apply list_elem_of_here.
  - eapply (Hlist _ _ _ _ Hp Hal).
    do 12 apply list_elem_of_further. apply list_elem_of_here.
  - eexists. split.
    + apply (Hmem _ _ Hp Hal).
      do 7 apply list_elem_of_further. apply list_elem_of_here.
    + reflexivity.
  - apply (Hmem _ _ Hp Hal).
    do 8 apply list_elem_of_further. apply list_elem_of_here.
  - exists (d_assignments (decoded data (next_oid w))),
           (d_assignmentScores (decoded data (next_oid w))),
           (Object_values (d_categories (decoded data (next_oid w)))).
    split_and!.
    + unfold lookupAll.
      rewrite (Hcache "assignments" "id"
                 (VInstances (d_assignments (decoded data (next_oid w)))) Hp);
        [done|].
      do 8 apply list_elem_of_further. apply list_elem_of_here.
    + apply wire_decode.
    + unfold lookupAll.
      rewrite (Hcache "assignmentScores" "assignmentID"
                 (VInstances (d_assignmentScores (decoded data (next_oid w))))
                 Hp); [done|].
      do 9 apply list_elem_of_further. apply list_elem_of_here.
    + apply wire_decode.
    + apply (Hmem _ _ Hp Hal).
      do 9 apply list_elem_of_further. apply list_elem_of_here.
    + apply d_categories_ids_NoDup.
    + apply d_categories_ids_iff.
    + intros c Hc.
      by apply d_categories_entry, d_categories_get in Hc as [_ Hc].
  - intros member Hn. by apply (fetch_member_other _ _ _ _ data).
Qed.

End Members.

(** C9, as the code has it, at the small school: the snapshot holds the
    teachers and both categories, "Work" holds the essay and the quiz, and
    there is no [assignments] and no [assignmentScores] member. *)
Lemma snapshot_members_witness :
  holds_list (fetch client_ok this world1).2 0 "teachers" (teachers data)
  ∧ holds_list (fetch client_ok this world1).2 0 "schools" [high_school]
  ∧ member_of (fetch client_ok this world1).2 0 "yearID"
    = Some (VJson (JNum 28))
  ∧ member_of (fetch client_ok this world1).2 0 "assignmentCategories"
    = Some (VCategories [tests; work])
  ∧ cat_assignments work
    = filter (λ a, categoryID categoryID_of a = 7%Z) [essay; quiz1; trip]
  ∧ member_of (fetch client_ok this world1).2 0 "assignments" = None
  ∧ member_of (fetch client_ok this world1).2 0 "assignmentScores" = None.
Proof.
  destruct (snapshot_members categoryID_of client_ok this world1 0)
    as (d & Hp & _ & Hschools & Hteachers & _ & _ & _ & _ & _ & _ & _ & _
          & _ & Hyear & (fetched & scores & cs & Hfetched & _ & _ & _
                          & Hcs & _ & _ & Hfiled) & Hother).
  - reflexivity.
  - exact example_allocated.
  - injection Hp as <-.
    assert (fetched = [essay; quiz1; trip]) as ->.
    { assert (Some (VInstances fetched)
              = Some (VInstances [essay; quiz1; trip])) as Heq.
      { rewrite <- Hfetched. vm_compute. reflexivity. }
      injection Heq as Heq. exact Heq. }
    assert (cs = [tests; work]) as ->.
    { assert (Some (VCategories cs) = Some (VCategories [tests; work])) as Heq.
      { rewrite <- Hcs. vm_compute. reflexivity. }
      injection Heq as Heq. exact Heq. }
    split_and!.
    + exact Hteachers.
    + exact (Hschools [("schoolNumber", JNum 100)] eq_refl).
    + exact Hyear.
    + exact Hcs.
    + apply (Hfiled work). apply list_elem_of_further, list_elem_of_here.
    + rewrite Hother; [reflexivity|].
      apply (bool_decide_unpack _). vm_compute. exact I.
    + rewrite Hother; [reflexivity|].
      apply (bool_decide_unpack _). vm_compute. exact I.
Defined.

